(** * jd_dashboard: the tab store and the dashboard's aggregation helpers

    A shallow embedding of
    - [src/components/ui/tabs.jsx]      (tabs sharing their state through a React context),
    - [src/src/components/ui/tabs.jsx]  (tabs receiving their state as props), and
    - the dashboard helpers [percentage], [averageHours], [aggregateMonthly].

    JavaScript numbers are IEEE-754 binary64 values; they are modelled by
    [spec_float] at precision 53, the executable specification of binary64
    that the Standard Library provides. *)

From Stdlib Require Import ZArith QArith List String Ascii Bool Lia Lqa Permutation Sorted.
From Stdlib Require Import Floats.SpecFloat.
Import ListNotations.

Local Open Scope Z_scope.
Set Warnings "-register-all".

(* ===================================================================== *)
(** * The fragment of JavaScript the code relies on *)
(* ===================================================================== *)

Module JS.

(** ** Numbers *)

Definition number : Type := spec_float.

Definition prec : Z := 53.
Definition emax : Z := 1024.

(** The Number value of a mathematical integer (round to nearest, ties to even). *)
Definition of_Z (z : Z) : number := binary_normalize prec emax z 0 false.

(** The literal [0]. *)
Definition plus_zero : number := S754_zero false.

Definition add : number -> number -> number := SFadd prec emax.
Definition mul : number -> number -> number := SFmul prec emax.
Definition div : number -> number -> number := SFdiv prec emax.

(** The Number value of a decimal literal with the digits [d] and [k]
    decimals, such as [12345.6789] for [d = 123456789] and [k = 4]: both [d]
    and [10^k] are below 2^53 in the literals used here, so the rounded
    quotient is the nearest number. *)
Definition literal (d : Z) (k : Z) : number := div (of_Z d) (of_Z (10 ^ k)).

(** [x === y] on two numbers: false whenever one is NaN, true on +0 and -0. *)
Definition num_strict_eq (x y : number) : bool := SFeqb x y.

Definition pow2 (e : Z) : Q :=
  match e with
  | Z0 => 1%Q
  | Zpos p => inject_Z (2 ^ Zpos p)
  | Zneg p => Qmake 1 (2 ^ p)%positive
  end.

(** [m * 2^e], the magnitude of the finite number with mantissa [m] and exponent [e]. *)
Definition magnitude (m : positive) (e : Z) : Q := (inject_Z (Zpos m) * pow2 e)%Q.

(** ** Decimal digits *)

Definition digit_char (d : Z) : ascii := ascii_of_nat (48 + Z.to_nat d).

Fixpoint digits_fuel (fuel : nat) (n : Z) : string :=
  match fuel with
  | O => String (digit_char n) EmptyString
  | S fuel' =>
      if n <? 10 then String (digit_char n) EmptyString
      else (digits_fuel fuel' (n / 10) ++ String (digit_char (n mod 10)) EmptyString)%string
  end.

(** The decimal representation of a non-negative integer, without leading zeros. *)
Definition digits (n : Z) : string := digits_fuel (Z.to_nat (Z.log2 n)) n.

(** Reading a decimal numeral back. *)
Definition digit_of (c : ascii) : option Z :=
  let k := Z.of_nat (nat_of_ascii c) in
  if (48 <=? k) && (k <=? 57) then Some (k - 48) else None.

Fixpoint number_of (s : string) (acc : Z) : option Z :=
  match s with
  | EmptyString => Some acc
  | String c s' =>
      match digit_of c with
      | Some d => number_of s' (10 * acc + d)
      | None => None
      end
  end.

Fixpoint zeros (k : nat) : string :=
  match k with
  | O => EmptyString
  | S k' => String "0"%char (zeros k')
  end.

(** ** Number::toString, for the finite numbers of magnitude at least 10^21

    [m * 2^e] with [0 <= e] is an integer.  The result is built from the
    integers [n], [k] and [s] with [10^(k-1) <= s < 10^k] such that
    [s * 10^(n-k)] has [m * 2^e] as its Number value and [k] is as small as
    possible; among several [s] the one closest to the number is taken. *)

Definition ndigits (v : Z) : Z := Z.of_nat (String.length (digits v)).

Record candidate := { c_val : Z; c_exp : Z }.

Definition c_k (c : candidate) : Z := ndigits (c_val c) - c_exp c.

Definition reads_back (x : number) (v : Z) : bool :=
  (0 <? v) && num_strict_eq (of_Z v) x.

Definition better (X : Z) (c d : candidate) : bool :=
  (c_k c <? c_k d)
  || ((c_k c =? c_k d)
      && ((Z.abs (c_val c - X) <? Z.abs (c_val d - X))
          || ((Z.abs (c_val c - X) =? Z.abs (c_val d - X))
              && Z.even (c_val c / 10 ^ c_exp c)))).

Definition pick (X : Z) (best : option candidate) (c : candidate) : option candidate :=
  match best with
  | None => Some c
  | Some b => if better X c b then Some c else best
  end.

Definition candidates_at (x : number) (X p : Z) : list candidate :=
  let lo := (X / 10 ^ p) * 10 ^ p in
  let hi := lo + 10 ^ p in
  filter (fun c => reads_back x (c_val c))
         [ {| c_val := lo; c_exp := p |}; {| c_val := hi; c_exp := p |} ].

(** Seventeen significant digits always read back as the same binary64
    number, so only the exponents from [ndigits X - 18] on are tried. *)
Definition shortest (x : number) (X : Z) : option candidate :=
  let exps := map (fun i => ndigits X - 18 + Z.of_nat i) (seq 0 19) in
  fold_left (pick X) (flat_map (candidates_at x X) (filter (Z.leb 0) exps)) None.

Definition exponential (s n : Z) : string :=
  let ds := digits s in
  let e := ("e+" ++ digits (n - 1))%string in
  match ds with
  | String d EmptyString => (String d EmptyString ++ e)%string
  | String d rest => (String d (String "."%char rest) ++ e)%string
  | EmptyString => e
  end.

Definition toString_large (m : positive) (e : Z) : string :=
  let X := Zpos m * 2 ^ e in
  match shortest (S754_finite false m e) X with
  | Some c =>
      let s := c_val c / 10 ^ c_exp c in
      exponential s (ndigits (c_val c))
  | None => exponential X (ndigits X)
  end.

(** ** Number.prototype.toFixed(f), for 0 <= f <= 100 *)

(** [10^k <= m * 2^e] *)
Definition at_least_pow10 (m : positive) (e k : Z) : bool :=
  if 0 <=? e then 10 ^ k <=? Zpos m * 2 ^ e
  else 10 ^ k * 2 ^ (- e) <=? Zpos m.

(** The integer [n] for which [n / 10^f - m * 2^e] is as close to zero as
    possible; of two such [n], the larger one. *)
Definition nearest_scaled (f : nat) (m : positive) (e : Z) : Z :=
  let scaled := Zpos m * 10 ^ Z.of_nat f in
  if 0 <=? e then scaled * 2 ^ e
  else (2 * scaled + 2 ^ (- e)) / (2 * 2 ^ (- e)).

(** Steps 11.b and 11.c: the digits of [n], left-padded with zeros to
    [f + 1] characters, with a point before the last [f] of them. *)
Definition fixed_digits (f : nat) (n : Z) : string :=
  let m := digits n in
  let m := (zeros (S f - String.length m) ++ m)%string in
  let k := String.length m in
  match f with
  | O => m
  | _ => (substring 0 (k - f) m ++ "." ++ substring (k - f) f m)%string
  end.

Definition sign_text (s : bool) : string := if s then "-"%string else ""%string.

Definition Number_toFixed (f : nat) (x : number) : string :=
  match x with
  | S754_nan => "NaN"
  | S754_infinity s => if s then "-Infinity" else "Infinity"
  | S754_zero _ => fixed_digits f 0
  | S754_finite s m e =>
      if at_least_pow10 m e 21 then (sign_text s ++ toString_large m e)%string
      else (sign_text s ++ fixed_digits f (nearest_scaled f m e))%string
  end.

(** *** A number rounded to one decimal place, as text

    For a finite number below 10^21 in magnitude: the sign, then the
    integer [n] nearest to ten times the magnitude (of two nearest, the
    larger) written as the numeral of [n / 10], a point and the digit
    [n mod 10].  The other numbers are written as [String(x)] writes them. *)
Definition one_decimal (x : number) (s : string) : Prop :=
  match x with
  | S754_nan => s = "NaN"%string
  | S754_infinity sg => s = if sg then "-Infinity"%string else "Infinity"%string
  | S754_zero _ => s = "0.0"%string
  | S754_finite sg m e =>
      if at_least_pow10 m e 21 then s = (sign_text sg ++ toString_large m e)%string
      else exists n : Z,
          0 <= n
          /\ (10 * magnitude m e - (1#2) < inject_Z n)%Q
          /\ (inject_Z n <= 10 * magnitude m e + (1#2))%Q
          /\ s = (sign_text sg ++ digits (n / 10) ++ "." ++ digits (n mod 10))%string
  end.

(** ** Values

    The values that tab identifiers and record fields range over.  Objects,
    symbols and big integers do not occur in the data the dashboard loads. *)

Inductive value :=
| VUndefined
| VNull
| VBool (b : bool)
| VNum (n : number)
| VStr (s : string).

(** [a === b] *)
Definition strict_eq (a b : value) : bool :=
  match a, b with
  | VUndefined, VUndefined => true
  | VNull, VNull => true
  | VBool x, VBool y => Bool.eqb x y
  | VNum x, VNum y => num_strict_eq x y
  | VStr x, VStr y => String.eqb x y
  | _, _ => false
  end.

(** ToBoolean, the test of [if (v)] and the operand of [!v]. *)
Definition ToBoolean (v : value) : bool :=
  match v with
  | VUndefined | VNull => false
  | VBool b => b
  | VNum (S754_zero _) | VNum S754_nan => false
  | VNum _ => true
  | VStr s => negb (String.eqb s "")
  end.

(** [typeof v] *)
Definition typeof (v : value) : string :=
  match v with
  | VUndefined => "undefined"
  | VNull => "object"
  | VBool _ => "boolean"
  | VNum _ => "number"
  | VStr _ => "string"
  end.

(** The rational that a decimal numeral with an optional sign and one
    point denotes: ["-12.5"] denotes -25/2. *)
Fixpoint split_at_point (s : string) : option (string * string) :=
  match s with
  | EmptyString => None
  | String c s' =>
      if Ascii.eqb c "."%char then Some (EmptyString, s')
      else match split_at_point s' with
           | Some (a, b) => Some (String c a, b)
           | None => None
           end
  end.

Definition unsigned_value (s : string) : option Q :=
  match split_at_point s with
  | Some (a, b) =>
      match number_of a 0, number_of b 0 with
      | Some i, Some f =>
          Some (inject_Z i + inject_Z f / inject_Z (10 ^ Z.of_nat (String.length b)))%Q
      | _, _ => None
      end
  | None => None
  end.

Definition decimal_value (s : string) : option Q :=
  match s with
  | String "-"%char s' => option_map Qopp (unsigned_value s')
  | _ => unsigned_value s
  end.

End JS.

Import JS.

(* ===================================================================== *)
(** * The tab components *)
(* ===================================================================== *)

(** The element tree handed to [Tabs] as [children], as JSX builds it: the
    three tab components with the props written at the call site, any other
    element, and children that are not elements (text). *)
Inductive element :=
| TabsList (children : list element)
| TabsTrigger (value : JS.value)
| TabsContent (value : JS.value) (children : list element)
| Other (children : list element)
| Text.

(** What a click on a rendered trigger runs: [() => setActiveTab(value)]
    calls the state setter when [setActiveTab] is one, and raises a
    TypeError when [setActiveTab] is [undefined]. *)
Inductive handler :=
| SetActiveTab (v : JS.value)
| NotAFunction.

(** The rendered output.  A button records the value of its trigger and
    whether it carries the selected style; a panel records the value of the
    content panel whose [div] it is. *)
Inductive dom :=
| Button (value : JS.value) (selected : bool) (onClick : handler)
| Panel (value : JS.value) (children : list dom)
| Div (children : list dom)
| TextNode.

(** ** The store: the state cell of [Tabs]

    [const [activeTab, setActiveTab] = useState(defaultValue)], the same
    line in both files. *)
Module TabStore.

Definition store : Type := JS.value.

Definition initialize (defaultValue : JS.value) : store := defaultValue.

(** [setActiveTab(id)] *)
Definition select (id : JS.value) (s : store) : store := id.

Definition activeId (s : store) : JS.value := s.

(** The test of [TabsContent]: [if (value !== activeTab) return null]. *)
Definition isActive (s : store) (value : JS.value) : bool :=
  if negb (strict_eq value (activeId s)) then false else true.

Definition selects (ids : list JS.value) (s : store) : store :=
  fold_left (fun s id => select id s) ids s.

End TabStore.

(** ** [src/components/ui/tabs.jsx]: state shared through a context *)
Module ContextTabs.

(** The value of [TabsContext.Provider]; [setActiveTab] is always the setter. *)
Record context := { activeTab : JS.value }.

Fixpoint render (ctx : context) (e : element) {struct e} : list dom :=
  match e with
  | TabsList children => [Div (flat_map (render ctx) children)]
  | TabsTrigger value =>
      [Button value (strict_eq (activeTab ctx) value) (SetActiveTab value)]
  | TabsContent value children =>
      if negb (strict_eq value (activeTab ctx)) then []
      else [Panel value (flat_map (render ctx) children)]
  | Other children => [Div (flat_map (render ctx) children)]
  | Text => [TextNode]
  end.

Definition Tabs (children : list element) (s : TabStore.store) : dom :=
  Div (flat_map (render {| activeTab := TabStore.activeId s |}) children).

End ContextTabs.

(** ** [src/src/components/ui/tabs.jsx]: state handed down as props *)
Module PropTabs.

(** The props [activeTab] and [setActiveTab] of a component; [has_setter]
    is false when [setActiveTab] is [undefined]. *)
Record props := { activeTab : JS.value; has_setter : bool }.

(** An element written without the two props. *)
Definition as_written : props := {| activeTab := VUndefined; has_setter := false |}.

(** [TabsList] and [TabsContent] render [{children}] as they received
    them; only [Tabs] clones its own children with the two props. *)
Fixpoint render (p : props) (e : element) {struct e} : list dom :=
  match e with
  | TabsList children => [Div (flat_map (render as_written) children)]
  | TabsTrigger value =>
      [Button value (strict_eq (activeTab p) value)
              (if has_setter p then SetActiveTab value else NotAFunction)]
  | TabsContent value children =>
      if negb (strict_eq value (activeTab p)) then []
      else [Panel value (flat_map (render as_written) children)]
  | Other children => [Div (flat_map (render as_written) children)]
  | Text => [TextNode]
  end.

(** [React.Children.map(children, child => isValidElement(child) ?
    cloneElement(child, { activeTab, setActiveTab }) : child)] *)
Definition Tabs (children : list element) (s : TabStore.store) : dom :=
  Div (flat_map (render {| activeTab := TabStore.activeId s; has_setter := true |}) children).

End PropTabs.

(** ** Observing and driving a rendered tab set *)

Fixpoint buttons (d : dom) : list (JS.value * bool * handler) :=
  match d with
  | Button v sel h => [(v, sel, h)]
  | Panel _ children => flat_map buttons children
  | Div children => flat_map buttons children
  | TextNode => []
  end.

(** The values of the content panels that are on screen. *)
Fixpoint panels (d : dom) : list JS.value :=
  match d with
  | Button _ _ _ => []
  | Panel v children => v :: flat_map panels children
  | Div children => flat_map panels children
  | TextNode => []
  end.

Inductive outcome :=
| Updated (s : TabStore.store)
| TypeError
| NoSuchButton.

(** A click on the [i]-th button of the rendered output, in document order. *)
Definition click (view : TabStore.store -> dom) (i : nat) (s : TabStore.store) : outcome :=
  match nth_error (buttons (view s)) i with
  | Some (_, _, SetActiveTab v) => Updated (TabStore.select v s)
  | Some (_, _, NotAFunction) => TypeError
  | None => NoSuchButton
  end.

(** The tab set of the dashboard. *)
Definition dashboard_tabs : list element :=
  [ TabsList [ TabsTrigger (VStr "orders"); TabsTrigger (VStr "inventory");
               TabsTrigger (VStr "returns"); TabsTrigger (VStr "analytics") ];
    TabsContent (VStr "orders") [Other []];
    TabsContent (VStr "inventory") [Other []];
    TabsContent (VStr "returns") [Other []];
    TabsContent (VStr "analytics") [Other []] ].

(* ===================================================================== *)
(** * The dashboard's helpers *)
(* ===================================================================== *)

Module Dashboard.

(** [function percentage(part,total){return total===0?0:((part/total)*100).toFixed(1);}] *)
Definition percentage (part total : JS.number) : JS.value :=
  if num_strict_eq total plus_zero then VNum plus_zero
  else VStr (Number_toFixed 1 (mul (div part total) (of_Z 100))).

(** [function averageHours(arr){if(!arr.length) return 0;
      return (arr.reduce((a,b)=>a+b,0)/arr.length).toFixed(1);}] *)
Definition averageHours (arr : list JS.number) : JS.value :=
  if (List.length arr =? 0)%nat then VNum plus_zero
  else VStr (Number_toFixed 1
               (div (fold_left (fun a b => add a b) arr plus_zero)
                    (of_Z (Z.of_nat (List.length arr))))).

(** A record read by [aggregateMonthly]: the properties [date] and [rate]
    of an order or a return; a property that is absent reads [undefined]. *)
Module Rec.
Record t := { date : JS.value; rate : JS.value }.
End Rec.

(** [{month, count, rate}].  [count] starts at 0 and grows by 1 for each
    record; an array has fewer than 2^32 elements, so the additions are
    exact and the count is kept as a natural number. *)
Module Bucket.
Record t := { month : string; count : nat; rate : JS.value }.

Definition incr (b : t) : t :=
  {| month := month b; count := S (count b); rate := rate b |}.

Definition with_rate (r : JS.value) (b : t) : t :=
  {| month := month b; count := count b; rate := r |}.
End Bucket.

(** The object [map = {}]: its own properties in creation order.  A month
    label is taken not to be the name of a property that every object
    inherits. *)
Definition object : Type := list (string * Bucket.t).

Fixpoint get (o : object) (k : string) : option Bucket.t :=
  match o with
  | [] => None
  | (k', b) :: o' => if String.eqb k' k then Some b else get o' k
  end.

(** [map[k] = b] for a key that [map] does not have yet. *)
Definition create (o : object) (k : string) (b : Bucket.t) : object := o ++ [(k, b)].

(** An in-place update of the bucket stored under [k]. *)
Definition modify (o : object) (k : string) (f : Bucket.t -> Bucket.t) : object :=
  map (fun kb => if String.eqb (fst kb) k then (fst kb, f (snd kb)) else kb) o.

(** A property key is an array index when it is the canonical decimal
    numeral of an integer from 0 to 2^32 - 2: "0", "10" and "12" are,
    "04", "Apr" and "4294967295" are not. *)
Definition array_index (k : string) : option Z :=
  match k with
  | EmptyString => None
  | String "0" EmptyString => Some 0
  | String "0" _ => None
  | _ =>
      match number_of k 0 with
      | Some n => if n <? 2 ^ 32 - 1 then Some n else None
      | None => None
      end
  end.

Definition is_index (k : string) : bool :=
  match array_index k with
  | Some _ => true
  | None => false
  end.

Definition index_of (k : string) : Z :=
  match array_index k with
  | Some n => n
  | None => 0
  end.

(** The order in which an object lists its own string keys
    (OrdinaryOwnPropertyKeys): the array indices in ascending numeric
    order, then the other keys in creation order.  [key] reads the
    property key of an entry. *)
Section OwnPropertyOrder.

Context {A : Type}.
Variable key : A -> string.

Fixpoint insert_ascending (x : A) (l : list A) : list A :=
  match l with
  | [] => [x]
  | y :: l' =>
      if index_of (key x) <=? index_of (key y) then x :: l
      else y :: insert_ascending x l'
  end.

Fixpoint ascending (l : list A) : list A :=
  match l with
  | [] => []
  | x :: l' => insert_ascending x (ascending l')
  end.

Definition own_property_order (l : list A) : list A :=
  ascending (filter (fun x => is_index (key x)) l)
  ++ filter (fun x => negb (is_index (key x))) l.

End OwnPropertyOrder.

(** [Object.values(o)]: the values of the own properties, in the order of
    the own property keys. *)
Definition values (o : object) : list Bucket.t := map snd (own_property_order fst o).

(** The same order on a list of keys. *)
Definition key_order (ks : list string) : list string := own_property_order (fun k => k) ks.

(** The distinct elements of a list, each at the place of its first occurrence. *)
Fixpoint first_occurrences (ls : list string) : list string :=
  match ls with
  | [] => []
  | l :: ls' => l :: filter (fun k => negb (String.eqb k l)) (first_occurrences ls')
  end.

Section Aggregate.

(** The host: the time value of [new Date(v)], [None] when it is NaN, and
    the short month name that [toLocaleString('default', {month:'short'})]
    gives for a time value in the host's locale and time zone. *)
Variable Date_time : JS.value -> option Z.
Variable month_short : Z -> string.

(** [new Date(v).toLocaleString('default', {month:'short'})]; for a NaN
    time value [toLocaleString] returns the string "Invalid Date". *)
Definition month_label (v : JS.value) : string :=
  match Date_time v with
  | Some t => month_short t
  | None => "Invalid Date"%string
  end.

(** The body of the [forEach] callback. *)
Definition visit (m : object) (o : Rec.t) : object :=
  let month := month_label (Rec.date o) in
  let m :=
    match get m month with
    | None => create m month {| Bucket.month := month; Bucket.count := 0;
                                Bucket.rate := VNum plus_zero |}
    | Some _ => m
    end in
  let m := modify m month Bucket.incr in
  if ToBoolean (Rec.rate o) then modify m month (Bucket.with_rate (Rec.rate o)) else m.

Definition aggregateMonthly (arr : list Rec.t) : list Bucket.t :=
  values (fold_left visit arr []).

(** *** What the result is compared with *)

Definition label_of (o : Rec.t) : string := month_label (Rec.date o).

Definition labels (arr : list Rec.t) : list string := map label_of arr.

(** The records of [arr] whose date maps to the label [l], in input order. *)
Definition mapped_to (l : string) (arr : list Rec.t) : list Rec.t :=
  filter (fun o => String.eqb (label_of o) l) arr.

(** The rates that pass the test [if (o.rate)]. *)
Definition carried_rates (arr : list Rec.t) : list JS.value :=
  map Rec.rate (filter (fun o => ToBoolean (Rec.rate o)) arr).

(** The rate of the last record mapped to [l] that carries one, and the
    initial [0] when no record does. *)
Definition last_rate (l : string) (arr : list Rec.t) : JS.value :=
  last (carried_rates (mapped_to l arr)) (VNum plus_zero).

Definition bucket_for (arr : list Rec.t) (l : string) : Bucket.t :=
  {| Bucket.month := l;
     Bucket.count := List.length (mapped_to l arr);
     Bucket.rate := last_rate l arr |}.

End Aggregate.

End Dashboard.

Import Dashboard.

(** ** A host for the examples: the en-US locale in the UTC time zone *)
Module SampleHost.

Definition msPerDay : Z := 86400000.

Definition days_from_civil (y m d : Z) : Z :=
  let y := if m <=? 2 then y - 1 else y in
  let era := y / 400 in
  let yoe := y - era * 400 in
  let doy := (153 * (if 2 <? m then m - 3 else m + 9) + 2) / 5 + d - 1 in
  let doe := yoe * 365 + yoe / 4 - yoe / 100 + doy in
  era * 146097 + doe - 719468.

(** The month, from 1 to 12, of a day counted from 1970-01-01. *)
Definition month_from_days (z : Z) : Z :=
  let z := z + 719468 in
  let era := z / 146097 in
  let doe := z - era * 146097 in
  let yoe := (doe - doe / 1460 + doe / 36524 - doe / 146096) / 365 in
  let doy := doe - (365 * yoe + yoe / 4 - yoe / 100) in
  let mp := (5 * doy + 2) / 153 in
  if mp <? 10 then mp + 3 else mp - 9.

Definition leap (y : Z) : bool :=
  ((y mod 4 =? 0) && negb (y mod 100 =? 0)) || (y mod 400 =? 0).

Definition days_in_month (y m : Z) : Z :=
  if m =? 2 then (if leap y then 29 else 28)
  else if (m =? 4) || (m =? 6) || (m =? 9) || (m =? 11) then 30 else 31.

(** The date-only form [YYYY-MM-DD], read as midnight UTC.  This host
    takes every other string for unparsable. *)
Definition parse (s : string) : option Z :=
  if negb (String.length s =? 10)%nat then None
  else if negb (String.eqb (substring 4 1 s) "-" && String.eqb (substring 7 1 s) "-") then None
  else
    match number_of (substring 0 4 s) 0, number_of (substring 5 2 s) 0,
          number_of (substring 8 2 s) 0 with
    | Some y, Some m, Some d =>
        if (1 <=? m) && (m <=? 12) && (1 <=? d) && (d <=? days_in_month y m)
        then Some (days_from_civil y m d * msPerDay) else None
    | _, _, _ => None
    end.

(** The integral part of a finite number, [None] for NaN and the infinities. *)
Definition truncate (x : JS.number) : option Z :=
  match x with
  | S754_zero _ => Some 0
  | S754_finite s m e =>
      let a := if 0 <=? e then Zpos m * 2 ^ e else Zpos m / 2 ^ (- e) in
      Some (if s then - a else a)
  | S754_infinity _ | S754_nan => None
  end.

Definition Date_time (v : JS.value) : option Z :=
  match v with
  | VUndefined => None
  | VNull => Some 0
  | VBool b => Some (if b then 1 else 0)
  | VNum x =>
      match truncate x with
      | Some t => if Z.abs t <=? 8640000000000000 then Some t else None
      | None => None
      end
  | VStr s => parse s
  end.

Definition month_short (t : Z) : string :=
  nth (Z.to_nat (month_from_days (t / msPerDay) - 1))
      ["Jan"; "Feb"; "Mar"; "Apr"; "May"; "Jun"; "Jul"; "Aug"; "Sep"; "Oct"; "Nov"; "Dec"]%string
      ""%string.

Definition on (d : string) (r : JS.value) : Rec.t := {| Rec.date := VStr d; Rec.rate := r |}.

End SampleHost.

(** ** A host whose locale writes the short month as its two-digit number,
    as bg-BG does, in the UTC time zone *)
Module NumeralHost.

Definition Date_time : JS.value -> option Z := SampleHost.Date_time.

Definition month_short (t : Z) : string :=
  nth (Z.to_nat (SampleHost.month_from_days (t / SampleHost.msPerDay) - 1))
      ["01"; "02"; "03"; "04"; "05"; "06"; "07"; "08"; "09"; "10"; "11"; "12"]%string
      ""%string.

End NumeralHost.

(** ** Sample inputs *)

Definition sample_aggregate : list Rec.t -> list Bucket.t :=
  aggregateMonthly SampleHost.Date_time SampleHost.month_short.

Definition sample_label : JS.value -> string :=
  month_label SampleHost.Date_time SampleHost.month_short.

Definition april_returns : list Rec.t :=
  [ SampleHost.on "2025-04-02" (VNum (of_Z 5)); SampleHost.on "2025-04-22" (VNum (of_Z 8)) ].

Definition april_bucket : Bucket.t :=
  {| Bucket.month := "Apr"; Bucket.count := 2; Bucket.rate := VNum (of_Z 8) |}.

Definition spring_orders : list Rec.t :=
  [ SampleHost.on "2025-03-10" VUndefined;
    SampleHost.on "2025-01-05" VUndefined;
    SampleHost.on "2025-03-22" VUndefined ].

Definition orders_with_bad_date : list Rec.t :=
  [ SampleHost.on "2025-04-20" VUndefined; SampleHost.on "soon" (VNum (of_Z 5)) ].

(** Orders of April, November, October and April again. *)
Definition autumn_orders : list Rec.t :=
  [ SampleHost.on "2025-04-20" VUndefined;
    SampleHost.on "2025-11-03" VUndefined;
    SampleHost.on "2025-10-09" VUndefined;
    SampleHost.on "2025-04-25" VUndefined ].

(** Two readings of a numeral denote the same rational. *)
Definition same_value (a b : option Q) : Prop :=
  match a, b with
  | Some x, Some y => (x == y)%Q
  | _, _ => False
  end.

(** Rational inequalities as integer ones. *)
Ltac q_to_z :=
  unfold Qminus; unfold Qlt, Qle, Qplus, Qmult, Qopp, inject_Z;
  cbn [Qnum Qden]; rewrite ?Pos2Z.inj_mul.

(** ** Induction on element trees, through the lists of children *)
Section ElementInduction.

Variable P : element -> Prop.
Hypothesis P_list : forall cs, Forall P cs -> P (TabsList cs).
Hypothesis P_trigger : forall v, P (TabsTrigger v).
Hypothesis P_content : forall v cs, Forall P cs -> P (TabsContent v cs).
Hypothesis P_other : forall cs, Forall P cs -> P (Other cs).
Hypothesis P_text : P Text.

Fixpoint element_nested_ind (e : element) : P e :=
  let all :=
    fix all (cs : list element) : Forall P cs :=
      match cs with
      | [] => Forall_nil P
      | c :: cs' => Forall_cons c (element_nested_ind c) (all cs')
      end in
  match e with
  | TabsList cs => P_list cs (all cs)
  | TabsTrigger v => P_trigger v
  | TabsContent v cs => P_content v cs (all cs)
  | Other cs => P_other cs (all cs)
  | Text => P_text
  end.

End ElementInduction.

(** Children that hold no tab component below the first level: text, and
    other elements without tab components inside. *)
Fixpoint plain (e : element) : bool :=
  match e with
  | TabsList _ | TabsTrigger _ | TabsContent _ _ => false
  | Other cs => forallb plain cs
  | Text => true
  end.

(** A tab set whose triggers and panels are all direct children of [Tabs]. *)
Definition flat (e : element) : bool :=
  match e with
  | TabsList cs => forallb plain cs
  | TabsTrigger _ => true
  | TabsContent _ cs => forallb plain cs
  | Other cs => forallb plain cs
  | Text => true
  end.

(* ===================================================================== *)
(** * The rest of the code: conversions, the button, the page *)
(* ===================================================================== *)

(** ** Conversions between primitive values

    [Number::toString] and [StringToNumber] are the host's; the code never
    depends on their details, so they stay parameters. *)
Module Convert.

Section Host.

Variable Number_toString : JS.number -> string.
Variable StringToNumber : string -> JS.number.

(** [String(v)], the conversion of a template literal [`${v}`]. *)
Definition ToString (v : JS.value) : string :=
  match v with
  | VUndefined => "undefined"
  | VNull => "null"
  | VBool true => "true"
  | VBool false => "false"
  | VNum n => Number_toString n
  | VStr s => s
  end.

Definition ToNumber (v : JS.value) : JS.number :=
  match v with
  | VUndefined => S754_nan
  | VNull => plus_zero
  | VBool true => of_Z 1
  | VBool false => plus_zero
  | VNum n => n
  | VStr s => StringToNumber s
  end.

(** [a + b]: concatenation as soon as one side is a string, the sum of the
    two numbers otherwise. *)
Definition plus (a b : JS.value) : JS.value :=
  match a, b with
  | VStr _, _ | _, VStr _ => VStr (ToString a ++ ToString b)
  | _, _ => VNum (add (ToNumber a) (ToNumber b))
  end.

(** [averageHours] on an array of any primitive values, as the page calls
    it with [orders.map((o) => o.fulfillmentHrs)]. *)
Definition averageHours_of (arr : list JS.value) : JS.value :=
  if (List.length arr =? 0)%nat then VNum plus_zero
  else VStr (Number_toFixed 1
               (div (ToNumber (fold_left (fun a b => plus a b) arr (VNum plus_zero)))
                    (of_Z (Z.of_nat (List.length arr))))).

End Host.

End Convert.

(** ** Data objects: the records that the fetch functions return *)
Module Obj.

Definition t : Type := list (string * JS.value).

(** [o.k]; a property that the object does not have reads [undefined]. *)
Fixpoint get (o : t) (k : string) : JS.value :=
  match o with
  | [] => VUndefined
  | (k', v) :: o' => if String.eqb k' k then v else get o' k
  end.

(** The two properties that [aggregateMonthly] reads. *)
Definition to_rec (o : t) : Rec.t := {| Rec.date := get o "date"; Rec.rate := get o "rate" |}.

End Obj.

(** ** [Button], the unnamed source file *)
Module Button.

Definition baseStyles : string :=
  "inline-flex items-center justify-center rounded-md font-medium transition-colors".

Definition variants : list (string * string) :=
  [ ("default", "bg-blue-500 text-white hover:bg-blue-600");
    ("outline", "border border-gray-300 bg-transparent hover:bg-gray-100");
    ("ghost", "hover:bg-gray-100") ]%string.

Definition sizes : list (string * string) :=
  [ ("default", "h-10 px-4 py-2");
    ("sm", "h-8 px-3 text-sm");
    ("lg", "h-12 px-8") ]%string.

Fixpoint own (table : list (string * string)) (k : string) : option string :=
  match table with
  | [] => None
  | (k', v) :: table' => if String.eqb k' k then Some v else own table' k
  end.

(** A default parameter [p = d] takes [d] exactly when the prop is
    [undefined]. *)
Definition default_to (d : string) (p : JS.value) : JS.value :=
  match p with
  | VUndefined => VStr d
  | _ => p
  end.

Section Host.

Variable Number_toString : JS.number -> string.

(** [String(Object.prototype[k])] for the names [k] that every object
    inherits, such as [constructor] and [toString]; [None] for other names. *)
Variable inherited_text : string -> option string.

(** [`${table[key]}`] *)
Definition member_text (table : list (string * string)) (key : JS.value) : string :=
  let k := Convert.ToString Number_toString key in
  match own table k with
  | Some v => v
  | None =>
      match inherited_text k with
      | Some text => text
      | None => "undefined"%string
      end
  end.

(** The [className] of the rendered [button]. *)
Definition className_of (variant size className : JS.value) : string :=
  (baseStyles ++ " " ++ member_text variants (default_to "default" variant)
              ++ " " ++ member_text sizes (default_to "default" size)
              ++ " " ++ Convert.ToString Number_toString (default_to "" className))%string.

End Host.

End Button.

(** ** The page: [Dashboard] and the components it is built from *)
Module Page.

(** [fakeFetch(key)], once its timer has fired. *)
Definition fakeFetch (key : string) : list Obj.t :=
  if String.eqb key "/orders" then
    [ [ ("id", VStr "1001"); ("customer", VStr "GANKIMA GOLI"); ("status", VStr "Pending");
        ("fulfillmentHrs", VNum plus_zero); ("date", VStr "2025-04-20") ] ]%string
  else if String.eqb key "/inventory" then
    [ [ ("sku", VStr "SKU-001"); ("name", VStr "Wireless Earbuds");
        ("stock", VNum (of_Z 100)); ("channel", VStr "JINGDONG") ] ]%string
  else if String.eqb key "/returns" then
    [ [ ("id", VStr "R-01"); ("customer", VStr "GANKIMA GOLI"); ("reason", VStr "Defective");
        ("status", VStr "Received"); ("date", VStr "2025-04-22"); ("rate", VNum (of_Z 5)) ] ]%string
  else [].

(** The four state cells of [Dashboard]. *)
Record state := { orders : list Obj.t; inventory : list Obj.t; returns : list Obj.t;
                  loading : bool }.

Definition initial : state :=
  {| orders := []; inventory := []; returns := []; loading := true |}.

(** What becomes of the promise of one fetch: it is fulfilled with the
    data, it is rejected, or it never settles. *)
Inductive promise :=
| Fulfilled (data : list Obj.t)
| Rejects
| NeverSettles.

Definition rejects (p : promise) : bool :=
  match p with
  | Rejects => true
  | Fulfilled _ | NeverSettles => false
  end.

(** What becomes of the promise of [loadData]. *)
Inductive settled := Resolved | Rejected | Waiting.

(** [loadData]: the three fetches are awaited together.  [Promise.all] is
    rejected as soon as one of the three is, whatever the others do; the
    setters are then skipped and [finally] clears [loading].  It is
    fulfilled once all three are; the three setters run and [finally]
    clears [loading].  With no rejection and a fetch that never settles,
    the [await] never returns: no setter runs and [finally] does not run
    either.  [fetch] stands for the stub [fakeFetch], which the file asks
    to replace with real endpoints. *)
Definition loadData (fetch : string -> promise) (s : state) : state * settled :=
  let o := fetch "/orders"%string in
  let i := fetch "/inventory"%string in
  let r := fetch "/returns"%string in
  if rejects o || rejects i || rejects r then
    ({| orders := orders s; inventory := inventory s; returns := returns s;
        loading := false |}, Rejected)
  else
    match o, i, r with
    | Fulfilled o, Fulfilled i, Fulfilled r =>
        ({| orders := o; inventory := i; returns := r; loading := false |}, Resolved)
    | _, _, _ => (s, Waiting)
    end.

(** The effect as the file has it, with the stub, whose timers fire. *)
Definition mount : state * settled := loadData (fun key => Fulfilled (fakeFetch key)) initial.

(** [rows.map((cells, idx) => ...)]: each element with its index. *)
Definition indexed {A : Type} (l : list A) : list (nat * A) := combine (seq 0 (List.length l)) l.

(** A table cell: a value, or the element
    [<Button size='sm' onClick={() => handleGenerateLabel(o.id)}>Generate</Button>]. *)
Inductive cell :=
| Plain (v : JS.value)
| Generate (orderId : JS.value).

(** The output of [SectionTable]: every [th], [tr] and [td] with its [key]. *)
Record table := { thead : list (string * string);
                  tbody : list (nat * list (nat * cell)) }.

Definition SectionTable (headers : list string) (rows : list (list cell)) : table :=
  {| thead := map (fun h => (h, h)) headers;
     tbody := map (fun r => (fst r, indexed (snd r))) (indexed rows) |}.

Definition orders_table (orders : list Obj.t) : table :=
  SectionTable ["ID"; "Customer"; "Status"; "Label"]%string
    (map (fun o => [ Plain (Obj.get o "id"); Plain (Obj.get o "customer");
                     Plain (Obj.get o "status"); Generate (Obj.get o "id") ]) orders).

Definition inventory_table (inventory : list Obj.t) : table :=
  SectionTable ["SKU"; "Product"; "Stock"; "Channel"]%string
    (map (fun i => [ Plain (Obj.get i "sku"); Plain (Obj.get i "name");
                     Plain (Obj.get i "stock"); Plain (Obj.get i "channel") ]) inventory).

Definition returns_table (returns : list Obj.t) : table :=
  SectionTable ["ID"; "Customer"; "Reason"; "Status"]%string
    (map (fun r => [ Plain (Obj.get r "id"); Plain (Obj.get r "customer");
                     Plain (Obj.get r "reason"); Plain (Obj.get r "status") ]) returns).

Section Host.

Variable Number_toString : JS.number -> string.
Variable StringToNumber : string -> JS.number.
Variable Date_time : JS.value -> option Z.
Variable month_short : Z -> string.

(** [fakeLabel(id)]: the text handed to [alert]. *)
Definition fakeLabel (id : JS.value) : string :=
  ("Shipping label for " ++ Convert.ToString Number_toString id)%string.

(** What a click on a cell does: [handleGenerateLabel(o.id)] for the
    button, nothing for a value. *)
Definition click_cell (c : cell) : option string :=
  match c with
  | Generate id => Some (fakeLabel id)
  | Plain _ => None
  end.

(** The object [analytics]; [orderVolume] is an array length. *)
Record analytics := { orderVolume : nat; fulfillmentTime : JS.value; returnRate : JS.value }.

Definition analytics_of (s : state) : analytics :=
  {| orderVolume := List.length (orders s);
     fulfillmentTime :=
       Convert.averageHours_of Number_toString StringToNumber
         (map (fun o => Obj.get o "fulfillmentHrs") (orders s));
     returnRate := percentage (of_Z (Z.of_nat (List.length (returns s))))
                              (of_Z (Z.of_nat (List.length (orders s)))) |}.

(** The value of the third card, [`${analytics.returnRate}%`]. *)
Definition return_rate_text (a : analytics) : string :=
  (Convert.ToString Number_toString (returnRate a) ++ "%")%string.

(** The data of the two charts of [AnalyticsCharts]. *)
Definition monthly (s : state) : list Bucket.t :=
  aggregateMonthly Date_time month_short (map Obj.to_rec (orders s)).

Definition returnMonthly (s : state) : list Bucket.t :=
  aggregateMonthly Date_time month_short (map Obj.to_rec (returns s)).

(** What [Dashboard] returns: the loading line, or the cards, the tables
    and the chart data. *)
Inductive view :=
| LoadingView
| Loaded (cards : analytics) (rate_text : string)
         (orders_t inventory_t returns_t : table)
         (bars line : list Bucket.t).

Definition Dashboard (s : state) : view :=
  if loading s then LoadingView
  else Loaded (analytics_of s) (return_rate_text (analytics_of s))
              (orders_table (orders s)) (inventory_table (inventory s))
              (returns_table (returns s)) (monthly s) (returnMonthly s).

End Host.

End Page.

(** The number of records that the buckets of [bs] count under the label [l]. *)
Definition count_in (bs : list Bucket.t) (l : string) : nat :=
  list_sum (map Bucket.count (filter (fun b => String.eqb (Bucket.month b) l) bs)).

Definition total_count (bs : list Bucket.t) : nat := list_sum (map Bucket.count bs).

(** The characters of a decimal numeral. *)
Fixpoint all_digits (s : string) : bool :=
  match s with
  | EmptyString => true
  | String c s' =>
      match digit_of c with
      | Some _ => all_digits s'
      | None => false
      end
  end.

(** The exact value of a number, [None] for NaN and the infinities. *)
Definition exact_value (x : JS.number) : option Q :=
  match x with
  | S754_zero _ => Some 0%Q
  | S754_finite s m e => Some (if s then - magnitude m e else magnitude m e)%Q
  | S754_infinity _ | S754_nan => None
  end.

(** A finite number below 10^21 in magnitude, the range in which
    [toFixed] writes plain decimals. *)
Definition below_1e21 (x : JS.number) : bool :=
  match x with
  | S754_zero _ => true
  | S754_finite _ m e => negb (at_least_pow10 m e 21)
  | S754_infinity _ | S754_nan => false
  end.

(** The text [s] denotes a rational within 1/20 of [v]. *)
Definition reads_within_a_twentieth (s : string) (v : Q) : Prop :=
  exists q : Q, decimal_value s = Some q /\ (v - (1#20) <= q)%Q /\ (q <= v + (1#20))%Q.

(** A tab set with the triggers and the panels right under [Tabs]. *)
Definition flat_tabs : list element :=
  [ TabsTrigger (VStr "orders"); TabsTrigger (VStr "inventory");
    TabsContent (VStr "orders") [Text]; TabsContent (VStr "inventory") [Other [Text]] ].

(* ===================================================================== *)
(** * Properties of the tab components *)
(* ===================================================================== *)

Section TabFacts.

Import TabStore.

Lemma strict_eq_string (x y : string) : strict_eq (VStr y) (VStr x) = String.eqb y x.
Proof. reflexivity. Qed.

Lemma isActive_strict_eq (s : store) (v : JS.value) : isActive s v = strict_eq v (activeId s).
Proof. unfold isActive. destruct (strict_eq v (activeId s)); reflexivity. Qed.

Lemma selects_last (before : list JS.value) (id : JS.value) (s : store) :
  selects (before ++ [id]) s = id.
Proof. unfold selects. rewrite fold_left_app. reflexivity. Qed.

(** A content panel is rendered exactly when the store reports it active,
    in the context file at any depth and in the props file right under [Tabs]. *)
Lemma context_panel_shown (s : store) (v : JS.value) (cs : list element) :
  ContextTabs.render {| ContextTabs.activeTab := activeId s |} (TabsContent v cs)
  = if isActive s v
    then [Panel v (flat_map (ContextTabs.render {| ContextTabs.activeTab := activeId s |}) cs)]
    else [].
Proof.
  rewrite isActive_strict_eq. simpl. unfold activeId.
  destruct (strict_eq v s); reflexivity.
Qed.

Lemma prop_panel_shown (s : store) (v : JS.value) (cs : list element) :
  PropTabs.render {| PropTabs.activeTab := activeId s; PropTabs.has_setter := true |}
                  (TabsContent v cs)
  = if isActive s v
    then [Panel v (flat_map (PropTabs.render PropTabs.as_written) cs)]
    else [].
Proof.
  rewrite isActive_strict_eq. simpl. unfold activeId.
  destruct (strict_eq v s); reflexivity.
Qed.

Lemma in_flat_map_flat_map {A B C} (f : A -> list B) (g : B -> list C) (l : list A) (c : C) :
  In c (flat_map g (flat_map f l)) -> exists a, In a l /\ In c (flat_map g (f a)).
Proof.
  intros H. apply in_flat_map in H. destruct H as [b [Hb Hc]].
  apply in_flat_map in Hb. destruct Hb as [a [Ha Hb]].
  exists a. split; [assumption|]. apply in_flat_map. exists b. split; assumption.
Qed.

(** Every panel on screen in the context file carries the active identifier. *)
Lemma context_panels_active (ctx : ContextTabs.context) (e : element) (v : JS.value) :
  In v (flat_map panels (ContextTabs.render ctx e)) ->
  strict_eq v (ContextTabs.activeTab ctx) = true.
Proof.
  revert v. induction e using element_nested_ind; intros w Hin; simpl in Hin.
  - rewrite app_nil_r in Hin. apply in_flat_map_flat_map in Hin.
    destruct Hin as [c [Hc Hw]]. rewrite Forall_forall in H. exact (H c Hc w Hw).
  - contradiction.
  - destruct (strict_eq v (ContextTabs.activeTab ctx)) eqn:E; simpl in Hin.
    + rewrite app_nil_r in Hin. destruct Hin as [<- | Hin]; [exact E|].
      apply in_flat_map_flat_map in Hin.
      destruct Hin as [c [Hc Hw]]. rewrite Forall_forall in H. exact (H c Hc w Hw).
    + contradiction.
  - rewrite app_nil_r in Hin. apply in_flat_map_flat_map in Hin.
    destruct Hin as [c [Hc Hw]]. rewrite Forall_forall in H. exact (H c Hc w Hw).
  - destruct Hin.
Qed.

(** In the props file a panel on screen carries the [activeTab] prop it was
    given, or sits below the first level, where that prop is [undefined]. *)
Lemma prop_panels_active (e : element) :
  forall (p : PropTabs.props) (v : JS.value),
  In v (flat_map panels (PropTabs.render p e)) ->
  strict_eq v (PropTabs.activeTab p) = true \/ strict_eq v VUndefined = true.
Proof.
  induction e using element_nested_ind; intros p w Hin; simpl in Hin.
  - rewrite app_nil_r in Hin. apply in_flat_map_flat_map in Hin.
    destruct Hin as [c [Hc Hw]]. rewrite Forall_forall in H.
    destruct (H c Hc _ w Hw) as [E|E]; right; exact E.
  - contradiction.
  - destruct (strict_eq v (PropTabs.activeTab p)) eqn:E; simpl in Hin.
    + rewrite app_nil_r in Hin. destruct Hin as [<- | Hin]; [left; exact E|].
      apply in_flat_map_flat_map in Hin.
      destruct Hin as [c [Hc Hw]]. rewrite Forall_forall in H.
      destruct (H c Hc _ w Hw) as [E'|E']; right; exact E'.
    + contradiction.
  - rewrite app_nil_r in Hin. apply in_flat_map_flat_map in Hin.
    destruct Hin as [c [Hc Hw]]. rewrite Forall_forall in H.
    destruct (H c Hc _ w Hw) as [E|E]; right; exact E.
  - destruct Hin.
Qed.

(** In the context file every button sets the store: no click raises. *)
Lemma context_buttons_set (ctx : ContextTabs.context) (e : element) :
  forall b, In b (flat_map buttons (ContextTabs.render ctx e)) ->
  snd b = SetActiveTab (fst (fst b)).
Proof.
  induction e using element_nested_ind; intros b Hin; simpl in Hin.
  - rewrite app_nil_r in Hin. apply in_flat_map_flat_map in Hin.
    destruct Hin as [c [Hc Hb]]. rewrite Forall_forall in H. exact (H c Hc b Hb).
  - destruct Hin as [<- | []]. reflexivity.
  - destruct (strict_eq v (ContextTabs.activeTab ctx)); simpl in Hin; [|contradiction].
    rewrite app_nil_r in Hin. apply in_flat_map_flat_map in Hin.
    destruct Hin as [c [Hc Hb]]. rewrite Forall_forall in H. exact (H c Hc b Hb).
  - rewrite app_nil_r in Hin. apply in_flat_map_flat_map in Hin.
    destruct Hin as [c [Hc Hb]]. rewrite Forall_forall in H. exact (H c Hc b Hb).
  - destruct Hin.
Qed.

Lemma context_click_never_throws (children : list element) (i : nat) (s : store) :
  click (ContextTabs.Tabs children) i s <> TypeError.
Proof.
  unfold click. destruct (nth_error _ i) as [[[v sel] h]|] eqn:E; [|discriminate].
  apply nth_error_In in E. unfold ContextTabs.Tabs in E. simpl in E.
  apply in_flat_map_flat_map in E. destruct E as [c [_ Hb]].
  apply context_buttons_set in Hb. simpl in Hb. subst h. discriminate.
Qed.

(** In the props file a trigger below the first level never reaches the
    setter, and is never styled as selected for a string identifier. *)
Lemma prop_nested_buttons_throw (e : element) :
  forall b, In b (flat_map buttons (PropTabs.render PropTabs.as_written e)) ->
  snd b = NotAFunction.
Proof.
  induction e using element_nested_ind; intros b Hin; simpl in Hin.
  - rewrite app_nil_r in Hin. apply in_flat_map_flat_map in Hin.
    destruct Hin as [c [Hc Hb]]. rewrite Forall_forall in H. exact (H c Hc b Hb).
  - destruct Hin as [<- | []]. reflexivity.
  - destruct (strict_eq v VUndefined); simpl in Hin; [|contradiction].
    rewrite app_nil_r in Hin. apply in_flat_map_flat_map in Hin.
    destruct Hin as [c [Hc Hb]]. rewrite Forall_forall in H. exact (H c Hc b Hb).
  - rewrite app_nil_r in Hin. apply in_flat_map_flat_map in Hin.
    destruct Hin as [c [Hc Hb]]. rewrite Forall_forall in H. exact (H c Hc b Hb).
  - destruct Hin.
Qed.

Lemma prop_click_inside_list_throws (cs rest : list element) (i : nat) (s : store) :
  (i < List.length (flat_map buttons (flat_map (PropTabs.render PropTabs.as_written) cs)))%nat ->
  click (PropTabs.Tabs (TabsList cs :: rest)) i s = TypeError.
Proof.
  intros Hi. unfold click, PropTabs.Tabs. simpl.
  rewrite nth_error_app1 by exact Hi.
  destruct (nth_error _ i) as [[[v sel] h]|] eqn:E.
  - apply nth_error_In in E. apply in_flat_map_flat_map in E.
    destruct E as [c [_ Hb]]. apply prop_nested_buttons_throw in Hb.
    simpl in Hb. subst h. reflexivity.
  - apply nth_error_None in E. lia.
Qed.

(** Below the first level nothing depends on the state in either file. *)
Lemma plain_renders_alike (e : element) :
  plain e = true ->
  forall ctx p, ContextTabs.render ctx e = PropTabs.render p e.
Proof.
  induction e using element_nested_ind; simpl; intros Hp ctx p; try discriminate.
  - f_equal. f_equal. rewrite forallb_forall in Hp. rewrite Forall_forall in H.
    clear -Hp H. induction cs as [|c cs IH]; simpl; [reflexivity|].
    rewrite (H c (or_introl eq_refl) (Hp c (or_introl eq_refl)) ctx PropTabs.as_written).
    f_equal. apply IH.
    + intros x Hx. apply H. right. exact Hx.
    + intros x Hx. apply Hp. right. exact Hx.
  - reflexivity.
Qed.

Lemma plain_children_alike (cs : list element) ctx p :
  forallb plain cs = true ->
  flat_map (ContextTabs.render ctx) cs = flat_map (PropTabs.render p) cs.
Proof.
  intros Hp. rewrite forallb_forall in Hp.
  induction cs as [|c cs IH]; simpl; [reflexivity|].
  rewrite (plain_renders_alike c (Hp c (or_introl eq_refl)) ctx p).
  f_equal. apply IH. intros; apply Hp; right; assumption.
Qed.

(** When every trigger and panel is a direct child of [Tabs], the two files
    render the same output, hence answer clicks alike. *)
Lemma flat_tabs_render_alike (children : list element) (s : store) :
  forallb flat children = true ->
  ContextTabs.Tabs children s = PropTabs.Tabs children s.
Proof.
  intros Hf. unfold ContextTabs.Tabs, PropTabs.Tabs. f_equal.
  rewrite forallb_forall in Hf.
  induction children as [|c cs IH]; simpl; [reflexivity|].
  rewrite IH by (intros; apply Hf; right; assumption).
  f_equal. specialize (Hf c (or_introl eq_refl)).
  destruct c as [l | v | v l | l | ]; simpl in *; try reflexivity.
  - do 2 f_equal. apply plain_children_alike. exact Hf.
  - destruct (strict_eq v (activeId s)); simpl; [|reflexivity].
    do 2 f_equal. apply plain_children_alike. exact Hf.
  - do 2 f_equal. apply plain_children_alike. exact Hf.
Qed.

End TabFacts.

(* ===================================================================== *)
(** * Properties of [aggregateMonthly] *)
(* ===================================================================== *)

Lemma first_occurrences_snoc (ls : list string) (l : string) :
  first_occurrences (ls ++ [l])
  = if existsb (String.eqb l) ls then first_occurrences ls else first_occurrences ls ++ [l].
Proof.
  induction ls as [|a ls IH]; simpl; [reflexivity|].
  rewrite IH. destruct (String.eqb_spec l a) as [->|Hne]; simpl.
  - destruct (existsb (String.eqb a) ls); [reflexivity|].
    rewrite filter_app. simpl. rewrite String.eqb_refl. simpl.
    rewrite app_nil_r. reflexivity.
  - destruct (existsb (String.eqb l) ls); [reflexivity|].
    rewrite filter_app. simpl.
    destruct (String.eqb_spec l a); [contradiction|reflexivity].
Qed.

Lemma in_first_occurrences (ls : list string) (l : string) :
  In l (first_occurrences ls) <-> In l ls.
Proof.
  induction ls as [|a ls IH]; simpl; [tauto|].
  rewrite filter_In, IH.
  destruct (String.eqb_spec l a) as [->|Hne]; simpl.
  - split; intros; left; reflexivity.
  - split.
    + intros [E | [H _]]; [left; exact E | right; exact H].
    + intros [E | H]; [left; exact E | right; split; [exact H | reflexivity]].
Qed.

Lemma NoDup_first_occurrences (ls : list string) : NoDup (first_occurrences ls).
Proof.
  induction ls as [|a ls IH]; simpl; constructor.
  - rewrite filter_In, String.eqb_refl. intros [_ H]. discriminate.
  - apply NoDup_filter. exact IH.
Qed.

Lemma existsb_eqb_In (ls : list string) (l : string) :
  existsb (String.eqb l) ls = true <-> In l ls.
Proof.
  rewrite existsb_exists. split.
  - intros [x [Hx E]]. apply String.eqb_eq in E. subst. exact Hx.
  - intros H. exists l. split; [exact H | apply String.eqb_refl].
Qed.

Lemma existsb_first_occurrences (ls : list string) (l : string) :
  existsb (String.eqb l) (first_occurrences ls) = existsb (String.eqb l) ls.
Proof.
  apply eq_true_iff_eq. rewrite !existsb_eqb_In. apply in_first_occurrences.
Qed.

Lemma get_tabulated (g : string -> Bucket.t) (ks : list string) (k : string) :
  get (map (fun l => (l, g l)) ks) k = if existsb (String.eqb k) ks then Some (g k) else None.
Proof.
  induction ks as [|a ks IH]; simpl; [reflexivity|].
  rewrite (String.eqb_sym k a).
  destruct (String.eqb_spec a k) as [->|Hne]; simpl; [reflexivity | exact IH].
Qed.

Lemma modify_tabulated (g : string -> Bucket.t) (ks : list string) (k : string)
      (f : Bucket.t -> Bucket.t) :
  modify (map (fun l => (l, g l)) ks) k f
  = map (fun l => (l, if String.eqb l k then f (g l) else g l)) ks.
Proof.
  unfold modify. rewrite map_map. apply map_ext. intros l. simpl.
  destruct (String.eqb l k); reflexivity.
Qed.

(** ** The order of the own property keys *)
Section OwnPropertyOrderFacts.

Context {A : Type}.
Variable key : A -> string.

Lemma insert_ascending_Permutation (x : A) (l : list A) :
  Permutation (insert_ascending key x l) (x :: l).
Proof.
  induction l as [|y l IH]; simpl; [apply Permutation_refl|].
  destruct (index_of (key x) <=? index_of (key y)); [apply Permutation_refl|].
  apply perm_trans with (y :: x :: l); [apply perm_skip; exact IH | apply perm_swap].
Qed.

Lemma ascending_Permutation (l : list A) : Permutation (ascending key l) l.
Proof.
  induction l as [|x l IH]; simpl; [apply perm_nil|].
  apply perm_trans with (x :: ascending key l);
    [apply insert_ascending_Permutation | apply perm_skip; exact IH].
Qed.

Lemma filter_split_Permutation (f : A -> bool) (l : list A) :
  Permutation (filter f l ++ filter (fun x => negb (f x)) l) l.
Proof.
  induction l as [|x l IH]; simpl; [apply perm_nil|].
  destruct (f x); simpl.
  - apply perm_skip. exact IH.
  - apply Permutation_sym, Permutation_cons_app, Permutation_sym. exact IH.
Qed.

Lemma own_property_order_Permutation (l : list A) :
  Permutation (own_property_order key l) l.
Proof.
  unfold own_property_order.
  apply perm_trans with (filter (fun x => is_index (key x)) l
                         ++ filter (fun x => negb (is_index (key x))) l).
  - apply Permutation_app_tail, ascending_Permutation.
  - apply filter_split_Permutation.
Qed.

Lemma insert_ascending_sorted (x : A) (l : list A) :
  StronglySorted (fun a b => index_of (key a) <= index_of (key b)) l ->
  StronglySorted (fun a b => index_of (key a) <= index_of (key b)) (insert_ascending key x l).
Proof.
  induction l as [|y l IH]; simpl; intros Hs.
  - constructor; constructor.
  - destruct (Z.leb_spec (index_of (key x)) (index_of (key y))) as [Hle|Hgt].
    + constructor; [exact Hs|]. constructor; [exact Hle|].
      apply StronglySorted_inv in Hs. destruct Hs as [_ Hall].
      eapply Forall_impl; [|exact Hall]. intros a Ha. simpl in Ha. lia.
    + apply StronglySorted_inv in Hs. destruct Hs as [Hs Hall].
      constructor; [apply IH; exact Hs|].
      apply Forall_forall. intros a Ha.
      apply (Permutation_in _ (insert_ascending_Permutation x l)) in Ha.
      destruct Ha as [<-|Ha]; [lia|].
      rewrite Forall_forall in Hall. apply Hall. exact Ha.
Qed.

Lemma ascending_sorted (l : list A) :
  StronglySorted (fun a b => index_of (key a) <= index_of (key b)) (ascending key l).
Proof.
  induction l as [|x l IH]; simpl; [constructor | apply insert_ascending_sorted; exact IH].
Qed.

Lemma filter_none (f : A -> bool) (l : list A) :
  (forall x, In x l -> f x = false) -> filter f l = [].
Proof.
  induction l as [|x l IH]; simpl; intros H; [reflexivity|].
  rewrite (H x (or_introl eq_refl)). apply IH. intros y Hy. apply H. right. exact Hy.
Qed.

Lemma filter_all (f : A -> bool) (l : list A) :
  (forall x, In x l -> f x = true) -> filter f l = l.
Proof.
  induction l as [|x l IH]; simpl; intros H; [reflexivity|].
  rewrite (H x (or_introl eq_refl)). f_equal. apply IH. intros y Hy. apply H. right. exact Hy.
Qed.

(** Without array indices among the keys the order is the creation order. *)
Lemma own_property_order_no_index (l : list A) :
  (forall x, In x l -> array_index (key x) = None) -> own_property_order key l = l.
Proof.
  intros H. unfold own_property_order.
  rewrite filter_none, filter_all; [reflexivity | |];
    intros x Hx; unfold is_index; rewrite (H x Hx); reflexivity.
Qed.

Lemma own_property_order_one (x : A) : own_property_order key [x] = [x].
Proof.
  unfold own_property_order. simpl. destruct (is_index (key x)); reflexivity.
Qed.

End OwnPropertyOrderFacts.

Lemma insert_ascending_map {A B : Type} (key : A -> string) (f : B -> A) (x : B) (l : list B) :
  insert_ascending key (f x) (map f l) = map f (insert_ascending (fun y => key (f y)) x l).
Proof.
  induction l as [|y l IH]; simpl; [reflexivity|].
  destruct (index_of (key (f x)) <=? index_of (key (f y))); simpl; [reflexivity|].
  rewrite IH. reflexivity.
Qed.

Lemma ascending_map {A B : Type} (key : A -> string) (f : B -> A) (l : list B) :
  ascending key (map f l) = map f (ascending (fun y => key (f y)) l).
Proof.
  induction l as [|x l IH]; simpl; [reflexivity|].
  rewrite IH. apply insert_ascending_map.
Qed.

Lemma filter_map_commute {A B : Type} (p : A -> bool) (f : B -> A) (l : list B) :
  filter p (map f l) = map f (filter (fun y => p (f y)) l).
Proof.
  induction l as [|x l IH]; simpl; [reflexivity|].
  destruct (p (f x)); simpl; rewrite IH; reflexivity.
Qed.

(** The order of the keys does not depend on what is stored under them. *)
Lemma own_property_order_map {A B : Type} (key : A -> string) (f : B -> A) (l : list B) :
  own_property_order key (map f l) = map f (own_property_order (fun y => key (f y)) l).
Proof.
  unfold own_property_order.
  rewrite !filter_map_commute, ascending_map, map_app. reflexivity.
Qed.

Lemma key_order_Permutation (ks : list string) : Permutation (key_order ks) ks.
Proof. apply own_property_order_Permutation. Qed.

Lemma in_key_order (ks : list string) (l : string) : In l (key_order ks) <-> In l ks.
Proof.
  split; apply Permutation_in;
    [apply key_order_Permutation | apply Permutation_sym, key_order_Permutation].
Qed.

Lemma NoDup_key_order (ks : list string) : NoDup ks -> NoDup (key_order ks).
Proof.
  apply Permutation_NoDup, Permutation_sym, key_order_Permutation.
Qed.

Lemma existsb_key_order (ks : list string) (l : string) :
  existsb (String.eqb l) (key_order ks) = existsb (String.eqb l) ks.
Proof.
  apply eq_true_iff_eq. rewrite !existsb_eqb_In. apply in_key_order.
Qed.

Section AggregateFacts.

Variable Date_time : JS.value -> option Z.
Variable month_short : Z -> string.

Let label_of := label_of Date_time month_short.
Let labels := labels Date_time month_short.
Let mapped_to := mapped_to Date_time month_short.
Let last_rate := last_rate Date_time month_short.
Let bucket_for := bucket_for Date_time month_short.
Let visit := visit Date_time month_short.
Let aggregateMonthly := aggregateMonthly Date_time month_short.

Lemma mapped_to_snoc (l : string) (arr : list Rec.t) (o : Rec.t) :
  mapped_to l (arr ++ [o])
  = mapped_to l arr ++ (if String.eqb (label_of o) l then [o] else []).
Proof.
  unfold mapped_to, Dashboard.mapped_to. rewrite filter_app. simpl.
  fold label_of. destruct (String.eqb (label_of o) l); reflexivity.
Qed.

Lemma carried_rates_snoc (arr : list Rec.t) (o : Rec.t) :
  carried_rates (arr ++ [o])
  = carried_rates arr ++ (if ToBoolean (Rec.rate o) then [Rec.rate o] else []).
Proof.
  unfold carried_rates. rewrite filter_app, map_app. simpl.
  destruct (ToBoolean (Rec.rate o)); reflexivity.
Qed.

(** What one more record does to the bucket of each label. *)
Lemma bucket_for_snoc (arr : list Rec.t) (o : Rec.t) (l : string) :
  bucket_for (arr ++ [o]) l
  = if String.eqb l (label_of o)
    then (if ToBoolean (Rec.rate o)
          then Bucket.with_rate (Rec.rate o) (Bucket.incr (bucket_for arr l))
          else Bucket.incr (bucket_for arr l))
    else bucket_for arr l.
Proof.
  unfold bucket_for, Dashboard.bucket_for, last_rate, Dashboard.last_rate.
  fold mapped_to. rewrite mapped_to_snoc, (String.eqb_sym l).
  destruct (String.eqb (label_of o) l).
  - rewrite carried_rates_snoc, length_app. simpl.
    unfold Bucket.with_rate, Bucket.incr. simpl.
    destruct (ToBoolean (Rec.rate o)).
    + rewrite last_last. f_equal. lia.
    + rewrite app_nil_r. f_equal. lia.
  - rewrite app_nil_r. reflexivity.
Qed.

Lemma bucket_for_unseen (arr : list Rec.t) (l : string) :
  existsb (String.eqb l) (labels arr) = false ->
  bucket_for arr l
  = {| Bucket.month := l; Bucket.count := 0; Bucket.rate := VNum plus_zero |}.
Proof.
  intros H.
  assert (E : mapped_to l arr = []).
  { unfold mapped_to, Dashboard.mapped_to. fold label_of.
    unfold labels, Dashboard.labels in H. fold label_of in H.
    induction arr as [|o arr IH]; simpl in *; [reflexivity|].
    apply orb_false_iff in H. destruct H as [H1 H2].
    rewrite String.eqb_sym, H1. apply IH. exact H2. }
  unfold bucket_for, Dashboard.bucket_for, last_rate, Dashboard.last_rate.
  fold mapped_to. rewrite E. reflexivity.
Qed.

Lemma labels_snoc (arr : list Rec.t) (o : Rec.t) :
  labels (arr ++ [o]) = labels arr ++ [label_of o].
Proof. unfold labels, Dashboard.labels. rewrite map_app. reflexivity. Qed.

(** One run of the loop body on the object built from [arr]. *)
Lemma visit_tabulated (arr : list Rec.t) (o : Rec.t) :
  visit (map (fun l => (l, bucket_for arr l)) (first_occurrences (labels arr))) o
  = map (fun l => (l, bucket_for (arr ++ [o]) l)) (first_occurrences (labels (arr ++ [o]))).
Proof.
  unfold visit, Dashboard.visit.
  change (month_label Date_time month_short (Rec.date o)) with (label_of o).
  set (k := label_of o).
  rewrite get_tabulated, existsb_first_occurrences, labels_snoc, first_occurrences_snoc.
  fold k.
  assert (Hstep : forall ks,
    (if ToBoolean (Rec.rate o)
     then modify (modify (map (fun l => (l, bucket_for arr l)) ks) k Bucket.incr)
                 k (Bucket.with_rate (Rec.rate o))
     else modify (map (fun l => (l, bucket_for arr l)) ks) k Bucket.incr)
    = map (fun l => (l, bucket_for (arr ++ [o]) l)) ks).
  { intros ks. rewrite modify_tabulated.
    destruct (ToBoolean (Rec.rate o)) eqn:Hr.
    - rewrite modify_tabulated. apply map_ext. intros l.
      rewrite bucket_for_snoc. fold k. rewrite Hr.
      destruct (String.eqb l k); reflexivity.
    - apply map_ext. intros l. rewrite bucket_for_snoc. fold k. rewrite Hr.
      destruct (String.eqb l k); reflexivity. }
  destruct (existsb (String.eqb k) (labels arr)) eqn:E.
  - apply Hstep.
  - unfold create. rewrite <- (bucket_for_unseen arr k E).
    change (map (fun l => (l, bucket_for arr l)) (first_occurrences (labels arr))
            ++ [(k, bucket_for arr k)])
      with (map (fun l => (l, bucket_for arr l)) (first_occurrences (labels arr))
            ++ map (fun l => (l, bucket_for arr l)) [k]).
    rewrite <- map_app. apply Hstep.
Qed.

(** The object built by the loop, after any number of records. *)
Lemma fold_visit (arr : list Rec.t) :
  fold_left visit arr []
  = map (fun l => (l, bucket_for arr l)) (first_occurrences (labels arr)).
Proof.
  induction arr as [|o arr IH] using rev_ind; [reflexivity|].
  rewrite fold_left_app. simpl. rewrite IH. apply visit_tabulated.
Qed.

(** The whole result: one bucket for each label, the labels in the order
    in which the object lists its keys. *)
Lemma aggregateMonthly_tabulated (arr : list Rec.t) :
  aggregateMonthly arr
  = map (bucket_for arr) (key_order (first_occurrences (labels arr))).
Proof.
  unfold aggregateMonthly, Dashboard.aggregateMonthly, values.
  fold visit. rewrite fold_visit, own_property_order_map, map_map. reflexivity.
Qed.

Lemma aggregateMonthly_months (arr : list Rec.t) :
  map Bucket.month (aggregateMonthly arr) = key_order (first_occurrences (labels arr)).
Proof.
  rewrite aggregateMonthly_tabulated, map_map. simpl. apply map_id.
Qed.

Lemma in_aggregateMonthly_months (arr : list Rec.t) (l : string) :
  In l (map Bucket.month (aggregateMonthly arr)) <-> In l (labels arr).
Proof.
  rewrite aggregateMonthly_months, in_key_order. apply in_first_occurrences.
Qed.

Lemma NoDup_aggregateMonthly_months (arr : list Rec.t) :
  NoDup (map Bucket.month (aggregateMonthly arr)).
Proof.
  rewrite aggregateMonthly_months. apply NoDup_key_order, NoDup_first_occurrences.
Qed.

Lemma aggregateMonthly_bucket (arr : list Rec.t) (b : Bucket.t) :
  In b (aggregateMonthly arr) ->
  In (Bucket.month b) (labels arr) /\ b = bucket_for arr (Bucket.month b).
Proof.
  rewrite aggregateMonthly_tabulated, in_map_iff. intros [l [<- Hl]].
  split; [|reflexivity]. simpl. apply in_first_occurrences, in_key_order. exact Hl.
Qed.

Lemma bucket_in_aggregateMonthly (arr : list Rec.t) (l : string) :
  In l (labels arr) -> In (bucket_for arr l) (aggregateMonthly arr).
Proof.
  intros H. rewrite aggregateMonthly_tabulated. apply in_map.
  apply in_key_order, in_first_occurrences. exact H.
Qed.

(** Without array indices among the labels the buckets keep the order in
    which the labels first occur. *)
Lemma aggregateMonthly_months_no_index (arr : list Rec.t) :
  (forall l, In l (labels arr) -> array_index l = None) ->
  map Bucket.month (aggregateMonthly arr) = first_occurrences (labels arr).
Proof.
  intros H. rewrite aggregateMonthly_months.
  apply own_property_order_no_index. intros l Hl. apply H, in_first_occurrences. exact Hl.
Qed.

End AggregateFacts.

(* ===================================================================== *)
(** * Properties of [toFixed(1)] *)
(* ===================================================================== *)

Section Digits.

Local Open Scope string_scope.
Local Open Scope Z_scope.

Lemma digits_fuel_small (f : nat) (n : Z) :
  n < 10 -> digits_fuel f n = String (digit_char n) "".
Proof.
  intros H. destruct f; simpl; [reflexivity|].
  destruct (Z.ltb_spec n 10); [reflexivity | lia].
Qed.

Lemma digits_fuel_more (f : nat) :
  forall n, 0 <= n < 2 ^ (Z.of_nat f + 1) -> digits_fuel (S f) n = digits_fuel f n.
Proof.
  induction f as [|f IH]; intros n Hn.
  - change (2 ^ (Z.of_nat 0 + 1)) with 2%Z in Hn.
    rewrite !digits_fuel_small by lia. reflexivity.
  - change (digits_fuel (S (S f)) n)
      with (if n <? 10 then String (digit_char n) ""
            else digits_fuel (S f) (n / 10) ++ String (digit_char (n mod 10)) "").
    change (digits_fuel (S f) n)
      with (if n <? 10 then String (digit_char n) ""
            else digits_fuel f (n / 10) ++ String (digit_char (n mod 10)) "").
    destruct (Z.ltb_spec n 10); [reflexivity|].
    rewrite IH; [reflexivity|].
    replace (Z.of_nat (S f) + 1)%Z with (Z.succ (Z.of_nat f + 1)) in Hn by lia.
    rewrite Z.pow_succ_r in Hn by lia.
    split; [apply Z.div_pos; lia|].
    apply Z.div_lt_upper_bound; lia.
Qed.

Lemma digits_fuel_enough (k f : nat) (n : Z) :
  0 <= n -> f = (Z.to_nat (Z.log2 n) + k)%nat -> digits_fuel f n = digits n.
Proof.
  intros Hn. revert f. induction k as [|k IH]; intros f ->.
  - rewrite Nat.add_0_r. reflexivity.
  - replace (Z.to_nat (Z.log2 n) + S k)%nat with (S (Z.to_nat (Z.log2 n) + k)) by lia.
    rewrite digits_fuel_more; [apply IH; reflexivity|].
    split; [exact Hn|].
    pose proof (Z.log2_nonneg n) as Hl.
    destruct (Z.eq_dec n 0) as [->|Hnz].
    + apply Z.pow_pos_nonneg; lia.
    + pose proof (Z.log2_spec n ltac:(lia)) as [_ Hlt].
      eapply Z.lt_le_trans; [exact Hlt|].
      apply Z.pow_le_mono_r; lia.
Qed.

Lemma digits_small (n : Z) : n < 10 -> digits n = String (digit_char n) "".
Proof. apply digits_fuel_small. Qed.

(** The numeral of [n] is the numeral of [n / 10] followed by the last digit. *)
Lemma digits_step (n : Z) :
  10 <= n -> digits n = digits (n / 10) ++ String (digit_char (n mod 10)) "".
Proof.
  intros Hn. unfold digits at 1.
  assert (Hl : 3 <= Z.log2 n) by (apply (Z.log2_le_mono 8 n); lia).
  destruct (Z.to_nat (Z.log2 n)) as [|f] eqn:Ef; [lia|].
  simpl. destruct (Z.ltb_spec n 10); [lia|].
  f_equal.
  assert (Hq : 0 <= n / 10) by (apply Z.div_pos; lia).
  assert (Hle : Z.log2 (n / 10) <= Z.log2 n - 1).
  { assert (Hq1 : 0 < n / 10) by (apply Z.div_str_pos; lia).
    assert (H2 : 2 * (n / 10) <= n)
      by (pose proof (Z.div_mod n 10 ltac:(lia));
          pose proof (Z.mod_pos_bound n 10 ltac:(lia)); lia).
    apply Z.log2_le_mono in H2. rewrite Z.log2_double in H2 by exact Hq1. lia. }
  pose proof (Z.log2_nonneg (n / 10)).
  apply (digits_fuel_enough (f - Z.to_nat (Z.log2 (n / 10))) f (n / 10) Hq). lia.
Qed.

Lemma length_append (a b : string) :
  String.length (a ++ b) = (String.length a + String.length b)%nat.
Proof. induction a as [|c a IH]; simpl; [reflexivity | rewrite IH; reflexivity]. Qed.

Lemma digits_nonempty (n : Z) : (1 <= String.length (digits n))%nat.
Proof.
  destruct (Z.lt_ge_cases n 10) as [H|H].
  - rewrite digits_small by exact H. simpl. lia.
  - rewrite digits_step by exact H. rewrite length_append. simpl. lia.
Qed.

Lemma substring_whole_prefix (a b : string) :
  substring 0 (String.length a) (a ++ b) = a.
Proof.
  induction a as [|c a IH]; simpl.
  - destruct b; reflexivity.
  - rewrite IH. reflexivity.
Qed.

Lemma substring_after_prefix (a b : string) :
  substring (String.length a) (String.length b) (a ++ b) = b.
Proof.
  induction a as [|c a IH]; simpl; [|exact IH].
  induction b as [|c b IHb]; simpl; [reflexivity|]. rewrite IHb. reflexivity.
Qed.

(** [toFixed(1)] on the scaled integer [n]: the numeral of [n / 10], a
    point, and the last digit. *)
Lemma fixed_digits_one (n : Z) :
  0 <= n -> fixed_digits 1 n = digits (n / 10) ++ "." ++ digits (n mod 10).
Proof.
  intros Hn. unfold fixed_digits.
  rewrite (digits_small (n mod 10)) by (apply Z.mod_pos_bound; lia).
  destruct (Z.lt_ge_cases n 10) as [H|H].
  - rewrite Z.div_small, Z.mod_small by lia.
    rewrite digits_small by exact H. reflexivity.
  - rewrite digits_step by exact H.
    set (a := digits (n / 10)). set (c := String (digit_char (n mod 10)) "").
    pose proof (digits_nonempty (n / 10)) as Ha. fold a in Ha.
    rewrite !length_append. change (String.length c) with 1%nat.
    replace (2 - (String.length a + 1))%nat with 0%nat by lia.
    change (zeros 0) with "". change ("" ++ a ++ c) with (a ++ c).
    change (String.length "") with 0%nat.
    replace (0 + (String.length a + 1) - 1)%nat with (String.length a) by lia.
    rewrite substring_whole_prefix.
    change 1%nat with (String.length c) at 1.
    rewrite substring_after_prefix. reflexivity.
Qed.

Lemma digit_of_digit_char (d : Z) : 0 <= d < 10 -> digit_of (digit_char d) = Some d.
Proof.
  intros H.
  assert (C : d = 0 \/ d = 1 \/ d = 2 \/ d = 3 \/ d = 4 \/ d = 5 \/ d = 6 \/ d = 7
              \/ d = 8 \/ d = 9) by lia.
  repeat (destruct C as [->|C]; [reflexivity|]). subst. reflexivity.
Qed.

Lemma number_of_app (a b : string) :
  forall acc, number_of (a ++ b) acc
              = match number_of a acc with Some v => number_of b v | None => None end.
Proof.
  induction a as [|c a IH]; intros acc; simpl; [reflexivity|].
  destruct (digit_of c); [apply IH | reflexivity].
Qed.

(** [digits] writes decimal numerals: reading one back gives the integer. *)
Lemma number_of_digits (n : Z) : 0 <= n -> number_of (digits n) 0 = Some n.
Proof.
  revert n. apply (Zlt_0_ind (fun n => number_of (digits n) 0 = Some n)).
  intros n IH Hn.
  destruct (Z.lt_ge_cases n 10) as [H|H].
  - rewrite digits_small by exact H. cbn [number_of].
    rewrite digit_of_digit_char by lia. reflexivity.
  - rewrite digits_step by exact H. rewrite number_of_app.
    rewrite IH by (split; [apply Z.div_pos; lia | apply Z.div_lt_upper_bound; lia]).
    cbn [number_of]. rewrite digit_of_digit_char by (apply Z.mod_pos_bound; lia).
    cbn [number_of]. f_equal. pose proof (Z.div_mod n 10 ltac:(lia)). lia.
Qed.

End Digits.

Lemma tenths_of_integer (M P : Z) :
  (10 * (inject_Z M * inject_Z P) - (1#2) < inject_Z (M * 10 * P))%Q /\
  (inject_Z (M * 10 * P) <= 10 * (inject_Z M * inject_Z P) + (1#2))%Q.
Proof. q_to_z. lia. Qed.

Lemma tenths_of_fraction (M N : Z) (d : positive) :
  20 * M - Zpos d < 2 * Zpos d * N <= 20 * M + Zpos d ->
  (10 * (inject_Z M * (1 # d)) - (1#2) < inject_Z N)%Q /\
  (inject_Z N <= 10 * (inject_Z M * (1 # d)) + (1#2))%Q.
Proof. intros H. q_to_z. nia. Qed.

(** The integer that [toFixed(1)] prints is within one half of ten times
    the magnitude, and is the larger one of two that are. *)
Lemma nearest_scaled_bounds (m : positive) (e : Z) :
  (10 * magnitude m e - (1#2) < inject_Z (nearest_scaled 1 m e))%Q /\
  (inject_Z (nearest_scaled 1 m e) <= 10 * magnitude m e + (1#2))%Q.
Proof.
  unfold nearest_scaled, magnitude. change (10 ^ Z.of_nat 1) with 10.
  destruct e as [|p|p].
  - change (pow2 0) with (inject_Z 1). change (0 <=? 0) with true. cbv iota.
    change (2 ^ 0) with 1. apply tenths_of_integer.
  - change (0 <=? Zpos p) with true. cbv iota. apply tenths_of_integer.
  - change (0 <=? Zneg p) with false. cbv iota.
    unfold pow2. change (- Zneg p) with (Zpos p).
    rewrite <- Pos2Z.inj_pow. generalize (2 ^ p)%positive. intros d.
    apply tenths_of_fraction.
    pose proof (Z.div_mod (2 * (Zpos m * 10) + Zpos d) (2 * Zpos d) ltac:(lia)) as Hdm.
    pose proof (Z.mod_pos_bound (2 * (Zpos m * 10) + Zpos d) (2 * Zpos d) ltac:(lia)) as Hb.
    lia.
Qed.

Lemma nearest_scaled_nonneg (f : nat) (m : positive) (e : Z) : 0 <= nearest_scaled f m e.
Proof.
  unfold nearest_scaled.
  assert (0 < 10 ^ Z.of_nat f) by (apply Z.pow_pos_nonneg; lia).
  destruct (0 <=? e) eqn:E.
  - apply Z.leb_le in E. assert (0 < 2 ^ e) by (apply Z.pow_pos_nonneg; lia). nia.
  - apply Z.leb_gt in E. assert (0 < 2 ^ (- e)) by (apply Z.pow_pos_nonneg; lia).
    apply Z.div_pos; nia.
Qed.

(** [toFixed(1)] writes its number rounded to one decimal place. *)
Lemma Number_toFixed_one_decimal (x : JS.number) : one_decimal x (Number_toFixed 1 x).
Proof.
  destruct x as [s|s| |s m e]; unfold one_decimal, Number_toFixed; try reflexivity.
  destruct (at_least_pow10 m e 21); [reflexivity|].
  exists (nearest_scaled 1 m e).
  pose proof (nearest_scaled_nonneg 1 m e) as Hn.
  pose proof (nearest_scaled_bounds m e) as [Hlo Hhi].
  repeat split; try assumption.
  rewrite fixed_digits_one by exact Hn. reflexivity.
Qed.

(** The model on inputs whose results are documented for the language. *)
Example toFixed_documented :
  Number_toFixed 0 (literal 123456789 4) = "12346"%string
  /\ Number_toFixed 1 (literal 123456789 4) = "12345.7"%string
  /\ Number_toFixed 6 (literal 123456789 4) = "12345.678900"%string
  /\ Number_toFixed 2 (of_Z (123 * 10 ^ 18)) = "123000000000000000000.00"%string
  /\ Number_toFixed 2 (literal 123 12) = "0.00"%string
  /\ Number_toFixed 1 (literal 234 2) = "2.3"%string
  /\ Number_toFixed 1 (literal 235 2) = "2.4"%string
  /\ Number_toFixed 1 (literal 255 2) = "2.5"%string
  /\ Number_toFixed 1 (SFopp (literal 234 2)) = "-2.3"%string
  /\ Number_toFixed 2 (literal 1005 3) = "1.00"%string
  /\ Number_toFixed 1 (literal 25 2) = "0.3"%string
  /\ Number_toFixed 1 (SFopp (literal 1 2)) = "-0.0"%string
  /\ Number_toFixed 1 (S754_zero true) = "0.0"%string
  /\ Number_toFixed 1 (div (of_Z 1) (S754_zero false)) = "Infinity"%string
  /\ Number_toFixed 1 (div (S754_zero false) (S754_zero false)) = "NaN"%string
  /\ Number_toFixed 1 (of_Z (10 ^ 21)) = "1e+21"%string
  /\ Number_toFixed 1 (of_Z (2 ^ 70)) = "1.1805916207174113e+21"%string
  /\ Number_toFixed 1 (mul (literal 602 2) (of_Z (10 ^ 23))) = "6.019999999999999e+23"%string.
Proof. vm_compute. repeat split. Qed.

(* ===================================================================== *)
(** * The claims *)
(* ===================================================================== *)

(** C1. [percentage(part, total)] is the number 0 when [total === 0] (for
    +0 and for -0); otherwise it is [(part / total) * 100], computed on
    binary64 numbers, rounded to one decimal place and written out by
    [toFixed(1)]: for a finite product below 10^21 the text is the numeral
    of the nearest tenth.  [percentage(0, 0)] is 0, [percentage(5, 20)] is
    "25.0", which denotes 25, and [percentage(1, 3)] is "33.3", which
    denotes 33.3. *)
Theorem percentage_one_decimal (part total : JS.number) :
  (num_strict_eq total plus_zero = true -> percentage part total = VNum plus_zero)
  /\ (num_strict_eq total plus_zero = false ->
      exists s, percentage part total = VStr s
                /\ one_decimal (mul (div part total) (of_Z 100)) s)
  /\ percentage (of_Z 0) (of_Z 0) = VNum plus_zero
  /\ (percentage (of_Z 5) (of_Z 20) = VStr "25.0"
      /\ same_value (decimal_value "25.0") (Some (25 # 1)))
  /\ (percentage (of_Z 1) (of_Z 3) = VStr "33.3"
      /\ same_value (decimal_value "33.3") (Some (333 # 10))).
Proof.
  split; [|split; [|split; [|split; split]]].
  - unfold percentage. intros ->. reflexivity.
  - unfold percentage. intros ->. eexists. split; [reflexivity|].
    apply Number_toFixed_one_decimal.
  - vm_compute. reflexivity.
  - vm_compute. reflexivity.
  - vm_compute. reflexivity.
  - vm_compute. reflexivity.
  - vm_compute. reflexivity.
Qed.

Lemma percentage_one_decimal_witness :
  (num_strict_eq (S754_zero true) plus_zero = true
   /\ percentage (of_Z 7) (S754_zero true) = VNum plus_zero)
  /\ (num_strict_eq (of_Z 3) plus_zero = false
      /\ exists s, percentage (of_Z 1) (of_Z 3) = VStr s
                   /\ one_decimal (mul (div (of_Z 1) (of_Z 3)) (of_Z 100)) s).
Proof.
  split.
  - split; [reflexivity|].
    destruct (percentage_one_decimal (of_Z 7) (S754_zero true)) as [H _].
    apply H. reflexivity.
  - split; [reflexivity|].
    destruct (percentage_one_decimal (of_Z 1) (of_Z 3)) as [_ [H _]].
    apply H. reflexivity.
Defined.

(** C6. [averageHours(arr)] is the number 0 for the empty array;
    otherwise it is the mean, the binary64 sum from left to right divided
    by the length, rounded to one decimal place and written out by
    [toFixed(1)].  [averageHours([])] is 0 and [averageHours([2, 4, 6])]
    is "4.0", which denotes 4. *)
Theorem averageHours_one_decimal (arr : list JS.number) :
  averageHours [] = VNum plus_zero
  /\ (arr <> [] ->
      exists s, averageHours arr = VStr s
                /\ one_decimal (div (fold_left add arr plus_zero)
                                    (of_Z (Z.of_nat (List.length arr)))) s)
  /\ (averageHours [of_Z 2; of_Z 4; of_Z 6] = VStr "4.0"
      /\ same_value (decimal_value "4.0") (Some (4 # 1))).
Proof.
  split; [reflexivity | split; [|split]].
  - intros Hne. unfold averageHours. destruct arr as [|a arr]; [contradiction|].
    change (List.length (a :: arr) =? 0)%nat with false. cbv iota.
    eexists. split; [reflexivity|]. apply Number_toFixed_one_decimal.
  - vm_compute. reflexivity.
  - vm_compute. reflexivity.
Qed.

Lemma averageHours_one_decimal_witness :
  [of_Z 1; of_Z 2] <> []
  /\ exists s, averageHours [of_Z 1; of_Z 2] = VStr s
               /\ one_decimal (div (fold_left add [of_Z 1; of_Z 2] plus_zero)
                                   (of_Z (Z.of_nat (List.length [of_Z 1; of_Z 2])))) s.
Proof.
  split; [discriminate|].
  destruct (averageHours_one_decimal [of_Z 1; of_Z 2]) as [_ [H _]].
  apply H. discriminate.
Defined.

(** C10. The result type differs between the guarded branch and the
    computed branch.  With [total === 0], [percentage] returns the number
    0; for every other [total] it returns a string, not a number: the
    rendering of [(part / total) * 100] with one decimal that [toFixed(1)]
    gives.  [averageHours] likewise returns the number 0 for the empty
    array and, for every non-empty one, the string that renders the mean
    with one decimal. *)
Theorem helpers_return_number_or_string (part total : JS.number) (arr : list JS.number) :
  (num_strict_eq total plus_zero = true ->
   percentage part total = VNum plus_zero
   /\ typeof (percentage part total) = "number"%string)
  /\ (num_strict_eq total plus_zero = false ->
      exists s, percentage part total = VStr s
                /\ typeof (percentage part total) = "string"%string
                /\ one_decimal (mul (div part total) (of_Z 100)) s)
  /\ (averageHours [] = VNum plus_zero
      /\ typeof (averageHours []) = "number"%string)
  /\ (arr <> [] ->
      exists s, averageHours arr = VStr s
                /\ typeof (averageHours arr) = "string"%string
                /\ one_decimal (div (fold_left add arr plus_zero)
                                    (of_Z (Z.of_nat (List.length arr)))) s).
Proof.
  split; [|split; [|split]].
  - intros H. unfold percentage. rewrite H. split; reflexivity.
  - intros H. unfold percentage. rewrite H.
    eexists. split; [reflexivity | split; [reflexivity|]].
    apply Number_toFixed_one_decimal.
  - split; reflexivity.
  - intros Hne. unfold averageHours. destruct arr as [|a arr]; [contradiction|].
    change (List.length (a :: arr) =? 0)%nat with false. cbv iota.
    eexists. split; [reflexivity | split; [reflexivity|]].
    apply Number_toFixed_one_decimal.
Qed.

Lemma helpers_return_number_or_string_witness :
  (num_strict_eq plus_zero plus_zero = true
   /\ typeof (percentage (of_Z 1) plus_zero) = "number"%string)
  /\ (num_strict_eq (of_Z 4) plus_zero = false
      /\ exists s, percentage (of_Z 1) (of_Z 4) = VStr s
                   /\ typeof (percentage (of_Z 1) (of_Z 4)) = "string"%string
                   /\ one_decimal (mul (div (of_Z 1) (of_Z 4)) (of_Z 100)) s)
  /\ ([of_Z 2; of_Z 3] <> []
      /\ exists s, averageHours [of_Z 2; of_Z 3] = VStr s
                   /\ typeof (averageHours [of_Z 2; of_Z 3]) = "string"%string
                   /\ one_decimal (div (fold_left add [of_Z 2; of_Z 3] plus_zero)
                                       (of_Z (Z.of_nat (List.length [of_Z 2; of_Z 3])))) s).
Proof.
  assert (Z0 : num_strict_eq plus_zero plus_zero = true) by reflexivity.
  assert (Z4 : num_strict_eq (of_Z 4) plus_zero = false) by reflexivity.
  assert (N : [of_Z 2; of_Z 3] <> []) by discriminate.
  split; [split; [exact Z0|] | split; [split; [exact Z4|] | split; [exact N|]]].
  - exact (proj2 (proj1 (helpers_return_number_or_string (of_Z 1) plus_zero []) Z0)).
  - exact (proj1 (proj2 (helpers_return_number_or_string (of_Z 1) (of_Z 4) [])) Z4).
  - exact (proj2 (proj2 (proj2 (helpers_return_number_or_string
                                  plus_zero plus_zero [of_Z 2; of_Z 3]))) N).
Defined.

Section AggregateClaims.

Variable Date_time : JS.value -> option Z.
Variable month_short : Z -> string.

Let month_label := month_label Date_time month_short.
Let label_of := label_of Date_time month_short.
Let labels := labels Date_time month_short.
Let mapped_to := mapped_to Date_time month_short.
Let last_rate := last_rate Date_time month_short.
Let bucket_for := bucket_for Date_time month_short.
Let aggregateMonthly := aggregateMonthly Date_time month_short.

Lemma carried_rates_none (arr : list Rec.t) :
  (forall o, In o arr -> ToBoolean (Rec.rate o) = false) -> carried_rates arr = [].
Proof.
  intros H. unfold carried_rates.
  induction arr as [|o arr IH]; simpl; [reflexivity|].
  rewrite (H o (or_introl eq_refl)). apply IH. intros o' Ho'. apply H. right. exact Ho'.
Qed.

(** The rate kept for a label is the rate of the record after which no
    record of that label carries one. *)
Lemma last_rate_at (l : string) (before after : list Rec.t) (o : Rec.t) :
  label_of o = l ->
  ToBoolean (Rec.rate o) = true ->
  (forall o', In o' after -> label_of o' = l -> ToBoolean (Rec.rate o') = false) ->
  last_rate l (before ++ o :: after) = Rec.rate o.
Proof.
  intros Hl Hr Hafter.
  assert (Hnone : carried_rates (mapped_to l after) = []).
  { apply carried_rates_none. intros o' Ho'.
    unfold mapped_to, Dashboard.mapped_to in Ho'. fold label_of in Ho'.
    apply filter_In in Ho'. destruct Ho' as [Hin Heq].
    apply Hafter; [exact Hin | apply String.eqb_eq; exact Heq]. }
  assert (Hsplit : mapped_to l (before ++ o :: after)
                   = mapped_to l before ++ o :: mapped_to l after).
  { unfold mapped_to, Dashboard.mapped_to. fold label_of.
    rewrite filter_app. simpl. rewrite Hl, String.eqb_refl. reflexivity. }
  unfold last_rate, Dashboard.last_rate. fold mapped_to. rewrite Hsplit.
  unfold carried_rates in *. rewrite filter_app, map_app. simpl. rewrite Hr. simpl.
  rewrite Hnone. apply last_last.
Qed.

(** C2. In every bucket the rate is the rate of the last record, in input
    order, that is mapped to the bucket and carries a rate, that is, whose
    [rate] passes the test [if (o.rate)] (and the initial 0 when no record
    does): later rates replace earlier ones, nothing is summed or averaged.
    Two records of one month with the rates 5 and then 8 give one bucket
    with rate 8. *)
Theorem aggregateMonthly_rate_is_last_carried (arr : list Rec.t) :
  (forall b, In b (aggregateMonthly arr) ->
             Bucket.rate b = last (carried_rates (mapped_to (Bucket.month b) arr))
                                  (VNum plus_zero))
  /\ (forall b before o after,
        In b (aggregateMonthly arr) ->
        arr = before ++ o :: after ->
        label_of o = Bucket.month b ->
        ToBoolean (Rec.rate o) = true ->
        (forall o', In o' after -> label_of o' = Bucket.month b ->
                    ToBoolean (Rec.rate o') = false) ->
        Bucket.rate b = Rec.rate o)
  /\ (forall d1 d2,
        month_label d1 = month_label d2 ->
        aggregateMonthly [ {| Rec.date := d1; Rec.rate := VNum (of_Z 5) |};
                           {| Rec.date := d2; Rec.rate := VNum (of_Z 8) |} ]
        = [ {| Bucket.month := month_label d1; Bucket.count := 2;
               Bucket.rate := VNum (of_Z 8) |} ]).
Proof.
  split; [|split].
  - intros b Hb. apply aggregateMonthly_bucket in Hb. destruct Hb as [_ Hb].
    rewrite Hb at 1. reflexivity.
  - intros b before o after Hb -> Hl Hr Hafter.
    apply aggregateMonthly_bucket in Hb. destruct Hb as [_ Hb].
    rewrite Hb at 1. simpl. apply last_rate_at; assumption.
  - intros d1 d2 E.
    unfold aggregateMonthly. rewrite aggregateMonthly_tabulated.
    assert (Hf : first_occurrences
                   (Dashboard.labels Date_time month_short
                      [ {| Rec.date := d1; Rec.rate := VNum (of_Z 5) |};
                        {| Rec.date := d2; Rec.rate := VNum (of_Z 8) |} ])
                 = [month_label d1]).
    { unfold Dashboard.labels, Dashboard.label_of. simpl.
      fold month_label. rewrite <- E, String.eqb_refl. reflexivity. }
    rewrite Hf. unfold key_order. rewrite own_property_order_one.
    unfold Dashboard.bucket_for, Dashboard.last_rate,
      Dashboard.mapped_to, Dashboard.label_of, carried_rates. simpl.
    fold month_label. rewrite <- E, String.eqb_refl. reflexivity.
Qed.

(** C3. There is exactly one bucket for each distinct month label of the
    input, and the count of a bucket is the number of records whose date
    maps to its label. *)
Theorem aggregateMonthly_one_bucket_per_label (arr : list Rec.t) :
  NoDup (map Bucket.month (aggregateMonthly arr))
  /\ (forall l, In l (map Bucket.month (aggregateMonthly arr)) <-> In l (labels arr))
  /\ (forall b, In b (aggregateMonthly arr) ->
                Bucket.count b = List.length (mapped_to (Bucket.month b) arr)).
Proof.
  split; [|split].
  - apply NoDup_aggregateMonthly_months.
  - intros l. apply in_aggregateMonthly_months.
  - intros b Hb. apply aggregateMonthly_bucket in Hb. destruct Hb as [_ Hb].
    rewrite Hb at 1. reflexivity.
Qed.

(** C4.  The order of the buckets is the order in which [Object.values]
    lists the keys of [map].  The buckets whose month label is an array
    index (the canonical decimal numeral of an integer below 2^32 - 1,
    such as "10", "11" and "12") come first, in ascending numeric order;
    the other buckets follow in the order in which their labels first
    occur in the input, not in calendar order.  When no label is an array index the
    whole result is in first-occurrence order: records dated Mar, Jan and
    Mar again give the buckets Mar, Jan. *)
Theorem aggregateMonthly_bucket_order (arr : list Rec.t) :
  (exists indices,
      map Bucket.month (aggregateMonthly arr)
      = indices ++ filter (fun l => negb (is_index l)) (first_occurrences (labels arr))
      /\ Permutation indices (filter is_index (first_occurrences (labels arr)))
      /\ StronglySorted (fun a b => index_of a <= index_of b) indices)
  /\ ((forall l, In l (labels arr) -> array_index l = None) ->
      map Bucket.month (aggregateMonthly arr) = first_occurrences (labels arr))
  /\ (forall o1 o2 o3,
        label_of o1 = "Mar"%string -> label_of o2 = "Jan"%string ->
        label_of o3 = "Mar"%string ->
        map Bucket.month (aggregateMonthly [o1; o2; o3]) = ["Mar"; "Jan"]%string).
Proof.
  unfold aggregateMonthly. split; [|split].
  - exists (ascending (fun k => k) (filter is_index (first_occurrences (labels arr)))).
    split; [apply aggregateMonthly_months | split].
    + apply ascending_Permutation.
    + apply ascending_sorted.
  - apply aggregateMonthly_months_no_index.
  - intros o1 o2 o3 H1 H2 H3. rewrite aggregateMonthly_months_no_index.
    + unfold Dashboard.labels. simpl. fold label_of. rewrite H1, H2, H3. reflexivity.
    + unfold Dashboard.labels. simpl. fold label_of. rewrite H1, H2, H3.
      intros l [<-|[<-|[<-|[]]]]; reflexivity.
Qed.

(** C7. A record whose date cannot be parsed raises nothing:
    [aggregateMonthly] is a total function, and the record is counted in
    the one bucket labelled "Invalid Date", the text that [toLocaleString]
    gives for an invalid date. *)
Theorem aggregateMonthly_unparsable_date (arr : list Rec.t) (o : Rec.t) :
  In o arr ->
  Date_time (Rec.date o) = None ->
  In o (mapped_to "Invalid Date" arr)
  /\ exists b,
      In b (aggregateMonthly arr)
      /\ Bucket.month b = "Invalid Date"%string
      /\ Bucket.count b = List.length (mapped_to "Invalid Date" arr)
      /\ (1 <= Bucket.count b)%nat
      /\ (forall b', In b' (aggregateMonthly arr) ->
                     Bucket.month b' = "Invalid Date"%string -> b' = b).
Proof.
  intros Hin Hnone.
  assert (Hl : label_of o = "Invalid Date"%string).
  { unfold label_of, Dashboard.label_of, Dashboard.month_label. rewrite Hnone. reflexivity. }
  assert (Hm : In o (mapped_to "Invalid Date" arr)).
  { unfold mapped_to, Dashboard.mapped_to. apply filter_In. split; [exact Hin|].
    fold label_of. rewrite Hl. reflexivity. }
  split; [exact Hm|].
  exists (bucket_for arr "Invalid Date").
  split; [|split; [|split; [|split]]].
  - apply bucket_in_aggregateMonthly.
    unfold Dashboard.labels. fold label_of. rewrite <- Hl. apply in_map. exact Hin.
  - reflexivity.
  - reflexivity.
  - simpl. fold mapped_to. destruct (mapped_to "Invalid Date" arr); [destruct Hm | simpl; lia].
  - intros b' Hb' Hmonth. apply aggregateMonthly_bucket in Hb'.
    destruct Hb' as [_ Hb']. rewrite Hb', Hmonth. reflexivity.
Qed.

End AggregateClaims.

(** ** The claims on the sample host *)

Lemma aggregateMonthly_rate_is_last_carried_witness :
  (sample_label (VStr "2025-04-02") = sample_label (VStr "2025-04-22")
   /\ sample_aggregate april_returns = [april_bucket])
  /\ (In april_bucket (sample_aggregate april_returns)
      /\ Bucket.rate april_bucket = VNum (of_Z 8))
  /\ Bucket.rate april_bucket
     = last (carried_rates (mapped_to SampleHost.Date_time SampleHost.month_short
                                      (Bucket.month april_bucket) april_returns))
            (VNum plus_zero).
Proof.
  assert (E : sample_label (VStr "2025-04-02") = sample_label (VStr "2025-04-22"))
    by (vm_compute; reflexivity).
  assert (I : In april_bucket (sample_aggregate april_returns))
    by (vm_compute; left; reflexivity).
  assert (L : label_of SampleHost.Date_time SampleHost.month_short
                       (SampleHost.on "2025-04-22" (VNum (of_Z 8)))
              = Bucket.month april_bucket)
    by (vm_compute; reflexivity).
  assert (R : ToBoolean (Rec.rate (SampleHost.on "2025-04-22" (VNum (of_Z 8)))) = true)
    by (vm_compute; reflexivity).
  split; [|split]; [split; [assumption|] | split; [assumption|] | ].
  - pose proof (proj2 (proj2 (aggregateMonthly_rate_is_last_carried
                                SampleHost.Date_time SampleHost.month_short []))
                      (VStr "2025-04-02") (VStr "2025-04-22") E) as W.
    vm_compute in W. vm_compute. exact W.
  - exact (proj1 (proj2 (aggregateMonthly_rate_is_last_carried
                           SampleHost.Date_time SampleHost.month_short april_returns))
                 april_bucket [SampleHost.on "2025-04-02" (VNum (of_Z 5))]
                 (SampleHost.on "2025-04-22" (VNum (of_Z 8))) []
                 I eq_refl L R (fun o' F _ => match F with end)).
  - exact (proj1 (aggregateMonthly_rate_is_last_carried
                    SampleHost.Date_time SampleHost.month_short april_returns)
                 april_bucket I).
Defined.

Lemma aggregateMonthly_one_bucket_per_label_witness :
  In april_bucket (sample_aggregate april_returns)
  /\ Bucket.count april_bucket
     = List.length (mapped_to SampleHost.Date_time SampleHost.month_short
                              (Bucket.month april_bucket) april_returns).
Proof.
  assert (I : In april_bucket (sample_aggregate april_returns))
    by (vm_compute; left; reflexivity).
  split; [exact I|].
  exact (proj2 (proj2 (aggregateMonthly_one_bucket_per_label
                         SampleHost.Date_time SampleHost.month_short april_returns))
               april_bucket I).
Defined.

Lemma aggregateMonthly_bucket_order_witness :
  ((forall l, In l (labels SampleHost.Date_time SampleHost.month_short spring_orders) ->
              array_index l = None)
   /\ map Bucket.month (sample_aggregate spring_orders)
      = first_occurrences (labels SampleHost.Date_time SampleHost.month_short spring_orders))
  /\ (sample_label (VStr "2025-03-10") = "Mar"%string
      /\ sample_label (VStr "2025-01-05") = "Jan"%string
      /\ sample_label (VStr "2025-03-22") = "Mar"%string)
  /\ map Bucket.month (sample_aggregate spring_orders) = ["Mar"; "Jan"]%string.
Proof.
  assert (N : forall l, In l (labels SampleHost.Date_time SampleHost.month_short spring_orders) ->
                        array_index l = None).
  { assert (L : labels SampleHost.Date_time SampleHost.month_short spring_orders
                = ["Mar"; "Jan"; "Mar"]%string) by (vm_compute; reflexivity).
    rewrite L. intros l [<-|[<-|[<-|[]]]]; vm_compute; reflexivity. }
  assert (E1 : sample_label (VStr "2025-03-10") = "Mar"%string) by (vm_compute; reflexivity).
  assert (E2 : sample_label (VStr "2025-01-05") = "Jan"%string) by (vm_compute; reflexivity).
  assert (E3 : sample_label (VStr "2025-03-22") = "Mar"%string) by (vm_compute; reflexivity).
  split; [split; [exact N|] | split; [split; [exact E1 | split; [exact E2 | exact E3]]|]].
  - exact (proj1 (proj2 (aggregateMonthly_bucket_order
                           SampleHost.Date_time SampleHost.month_short spring_orders)) N).
  - exact (proj2 (proj2 (aggregateMonthly_bucket_order
                           SampleHost.Date_time SampleHost.month_short []))
                 (SampleHost.on "2025-03-10" VUndefined)
                 (SampleHost.on "2025-01-05" VUndefined)
                 (SampleHost.on "2025-03-22" VUndefined) E1 E2 E3).
Defined.

(** C4.  The order of first occurrence is not kept on a host whose short
    month names are numerals: orders of April, November, October and
    April again have the labels
    "04", "11", "10", "04", whose first-occurrence order is 04, 11, 10, and
    the buckets come as 10, 11, 04. *)
Lemma first_occurrence_order_fails_for_numerals :
  labels NumeralHost.Date_time NumeralHost.month_short autumn_orders
  = ["04"; "11"; "10"; "04"]%string
  /\ first_occurrences (labels NumeralHost.Date_time NumeralHost.month_short autumn_orders)
     = ["04"; "11"; "10"]%string
  /\ map Bucket.month
         (aggregateMonthly NumeralHost.Date_time NumeralHost.month_short autumn_orders)
     = ["10"; "11"; "04"]%string
  /\ map Bucket.month
         (aggregateMonthly NumeralHost.Date_time NumeralHost.month_short autumn_orders)
     <> first_occurrences
          (labels NumeralHost.Date_time NumeralHost.month_short autumn_orders).
Proof.
  split; [vm_compute; reflexivity | split; [vm_compute; reflexivity | split]].
  - vm_compute. reflexivity.
  - vm_compute. discriminate.
Qed.

Lemma aggregateMonthly_unparsable_date_witness :
  (In (SampleHost.on "soon" (VNum (of_Z 5))) orders_with_bad_date
   /\ SampleHost.Date_time (Rec.date (SampleHost.on "soon" (VNum (of_Z 5)))) = None)
  /\ exists b,
      In b (sample_aggregate orders_with_bad_date)
      /\ Bucket.month b = "Invalid Date"%string
      /\ (1 <= Bucket.count b)%nat.
Proof.
  assert (I : In (SampleHost.on "soon" (VNum (of_Z 5))) orders_with_bad_date)
    by (right; left; reflexivity).
  assert (N : SampleHost.Date_time (Rec.date (SampleHost.on "soon" (VNum (of_Z 5)))) = None)
    by (vm_compute; reflexivity).
  split; [split; [exact I | exact N]|].
  destruct (aggregateMonthly_unparsable_date
              SampleHost.Date_time SampleHost.month_short orders_with_bad_date
              (SampleHost.on "soon" (VNum (of_Z 5))) I N) as [_ [b [Hb [Hm [_ [Hc _]]]]]].
  exists b. split; [exact Hb | split; [exact Hm | exact Hc]].
Defined.

(* ===================================================================== *)
(** * The claims about the tab store *)
(* ===================================================================== *)

(** C5. After [select(x)], [isActive(x)] holds and [isActive(y)] fails for
    every other identifier [y], whatever the state was and whatever was
    selected before; [initialize(d)] makes exactly [d] active; and
    selecting the active identifier again changes nothing. *)
Theorem select_makes_exactly_one_active
        (s : TabStore.store) (x y : string) (before : list JS.value) :
  TabStore.isActive (TabStore.select (VStr x) s) (VStr x) = true
  /\ (y <> x -> TabStore.isActive (TabStore.select (VStr x) s) (VStr y) = false)
  /\ TabStore.isActive (TabStore.selects (before ++ [VStr x]) s) (VStr x) = true
  /\ (y <> x -> TabStore.isActive (TabStore.selects (before ++ [VStr x]) s) (VStr y) = false)
  /\ TabStore.isActive (TabStore.initialize (VStr x)) (VStr x) = true
  /\ (y <> x -> TabStore.isActive (TabStore.initialize (VStr x)) (VStr y) = false)
  /\ TabStore.select (VStr x) (TabStore.select (VStr x) s) = TabStore.select (VStr x) s
  /\ TabStore.selects [VStr x; VStr x] s = TabStore.selects [VStr x] s.
Proof.
  rewrite selects_last.
  unfold TabStore.select, TabStore.initialize.
  rewrite !isActive_strict_eq. unfold TabStore.activeId.
  rewrite !strict_eq_string, String.eqb_refl.
  assert (Hne : y <> x -> String.eqb y x = false) by (apply String.eqb_neq).
  repeat split; try reflexivity; exact Hne.
Qed.

Lemma select_makes_exactly_one_active_witness :
  "orders"%string <> "inventory"%string
  /\ TabStore.isActive
       (TabStore.select (VStr "inventory") (TabStore.initialize (VStr "orders")))
       (VStr "orders") = false
  /\ TabStore.isActive
       (TabStore.selects ([VStr "returns"; VStr "orders"] ++ [VStr "inventory"])
                         (TabStore.initialize (VStr "orders")))
       (VStr "orders") = false
  /\ TabStore.isActive (TabStore.initialize (VStr "inventory")) (VStr "orders") = false.
Proof.
  assert (N : "orders"%string <> "inventory"%string) by discriminate.
  destruct (select_makes_exactly_one_active
              (TabStore.initialize (VStr "orders")) "inventory" "orders"
              [VStr "returns"; VStr "orders"]) as [_ [H1 [_ [H2 [_ [H3 _]]]]]].
  split; [exact N | split; [exact (H1 N) | split; [exact (H2 N) | exact (H3 N)]]].
Defined.

(** C8. [select(id)] checks nothing and cannot fail: the store simply
    holds [id] afterwards, also when no trigger or panel has that value.
    Every content panel whose value differs from [id] then renders
    nothing, in both files, so that no panel with another value is on
    screen; with an identifier that matches no panel of the dashboard, no
    panel is on screen at all. *)
Theorem select_unknown_id_shows_no_other_panel
        (children cs : list element) (s : TabStore.store) (id y : string) :
  TabStore.activeId (TabStore.select (VStr id) s) = VStr id
  /\ (y <> id ->
      TabStore.isActive (TabStore.select (VStr id) s) (VStr y) = false
      /\ ContextTabs.render
           {| ContextTabs.activeTab := TabStore.activeId (TabStore.select (VStr id) s) |}
           (TabsContent (VStr y) cs) = []
      /\ PropTabs.render
           {| PropTabs.activeTab := TabStore.activeId (TabStore.select (VStr id) s);
              PropTabs.has_setter := true |}
           (TabsContent (VStr y) cs) = []
      /\ ~ In (VStr y) (panels (ContextTabs.Tabs children (TabStore.select (VStr id) s)))
      /\ ~ In (VStr y) (panels (PropTabs.Tabs children (TabStore.select (VStr id) s))))
  /\ panels (ContextTabs.Tabs dashboard_tabs (TabStore.select (VStr "settings") s)) = []
  /\ panels (PropTabs.Tabs dashboard_tabs (TabStore.select (VStr "settings") s)) = [].
Proof.
  split; [reflexivity | split; [|split; reflexivity]].
  intros Hne. apply String.eqb_neq in Hne.
  split; [|split; [|split; [|split]]].
  - rewrite isActive_strict_eq. simpl. exact Hne.
  - simpl. rewrite Hne. reflexivity.
  - simpl. rewrite Hne. reflexivity.
  - intros Hin. unfold ContextTabs.Tabs in Hin. simpl in Hin.
    apply in_flat_map_flat_map in Hin. destruct Hin as [c [_ Hin]].
    apply context_panels_active in Hin. simpl in Hin. congruence.
  - intros Hin. unfold PropTabs.Tabs in Hin. simpl in Hin.
    apply in_flat_map_flat_map in Hin. destruct Hin as [c [_ Hin]].
    apply prop_panels_active in Hin. simpl in Hin.
    destruct Hin as [Hin|Hin]; congruence.
Qed.

Lemma select_unknown_id_shows_no_other_panel_witness :
  "orders"%string <> "settings"%string
  /\ ~ In (VStr "orders")
         (panels (ContextTabs.Tabs dashboard_tabs
                    (TabStore.select (VStr "settings") (TabStore.initialize (VStr "orders")))))
  /\ ~ In (VStr "orders")
         (panels (PropTabs.Tabs dashboard_tabs
                    (TabStore.select (VStr "settings") (TabStore.initialize (VStr "orders"))))).
Proof.
  split; [discriminate|].
  destruct (select_unknown_id_shows_no_other_panel
              dashboard_tabs [] (TabStore.initialize (VStr "orders")) "settings" "orders")
    as [_ [H _]].
  destruct (H ltac:(discriminate)) as [_ [_ [_ [H1 H2]]]].
  split; assumption.
Defined.

(** C9.  The two files do not behave alike on the dashboard's own tab set.
    With the context file a click on the trigger "inventory" selects it and
    the trigger "orders" is styled as selected at the start; with the props
    file the triggers sit inside [TabsList], which does not hand
    [activeTab] and [setActiveTab] on, so no trigger is styled as selected
    and the click calls [undefined]: a TypeError, and "orders" stays
    active. *)
Theorem prop_tabs_nested_trigger_throws :
  let start := TabStore.initialize (VStr "orders") in
  click (ContextTabs.Tabs dashboard_tabs) 1 start = Updated (VStr "inventory")
  /\ click (PropTabs.Tabs dashboard_tabs) 1 start = TypeError
  /\ map (fun b => snd (fst b)) (buttons (ContextTabs.Tabs dashboard_tabs start))
     = [true; false; false; false]
  /\ map (fun b => snd (fst b)) (buttons (PropTabs.Tabs dashboard_tabs start))
     = [false; false; false; false]
  /\ panels (ContextTabs.Tabs dashboard_tabs start) = [VStr "orders"]
  /\ panels (PropTabs.Tabs dashboard_tabs start) = [VStr "orders"].
Proof. repeat split. Qed.

(* ===================================================================== *)
(** * Further properties of [aggregateMonthly] *)
(* ===================================================================== *)


Lemma list_sum_map_add {A : Type} (f g : A -> nat) (l : list A) :
  list_sum (map (fun x => f x + g x)%nat l) = (list_sum (map f l) + list_sum (map g l))%nat.
Proof. induction l as [|a l IH]; simpl; [reflexivity | rewrite IH; lia]. Qed.

Lemma list_sum_indicator (ks : list string) (k : string) :
  NoDup ks -> In k ks ->
  list_sum (map (fun l => if String.eqb k l then 1 else 0)%nat ks) = 1%nat.
Proof.
  induction ks as [|a ks IH]; intros Hnd Hin; [destruct Hin|].
  inversion Hnd as [|? ? Hnotin Hnd']; subst. simpl.
  destruct (String.eqb_spec k a) as [->|Hne].
  - assert (E : list_sum (map (fun l => if String.eqb a l then 1 else 0)%nat ks) = 0%nat).
    { clear -Hnotin. induction ks as [|b ks IH]; simpl; [reflexivity|].
      destruct (String.eqb_spec a b) as [->|_]; [exfalso; apply Hnotin; left; reflexivity|].
      apply IH. intros H. apply Hnotin. right. exact H. }
    rewrite E. reflexivity.
  - destruct Hin as [->|Hin]; [contradiction|]. apply IH; assumption.
Qed.

Lemma filter_key_NoDup (ks : list string) (l : string) :
  NoDup ks ->
  filter (fun k => String.eqb k l) ks = if existsb (String.eqb l) ks then [l] else [].
Proof.
  induction ks as [|a ks IH]; intros Hnd; [reflexivity|].
  inversion Hnd as [|? ? Hnotin Hnd']; subst. simpl.
  rewrite (String.eqb_sym l a).
  destruct (String.eqb_spec a l) as [->|Hne]; simpl.
  - rewrite IH by exact Hnd'.
    destruct (existsb (String.eqb l) ks) eqn:E; [|reflexivity].
    apply existsb_eqb_In in E. contradiction.
  - apply IH. exact Hnd'.
Qed.

Lemma filter_length_Permutation {A : Type} (f : A -> bool) (a b : list A) :
  Permutation a b -> List.length (filter f a) = List.length (filter f b).
Proof.
  induction 1 as [|x a b _ IH|x y a|a b c _ IH1 _ IH2]; simpl.
  - reflexivity.
  - destruct (f x); simpl; rewrite IH; reflexivity.
  - destruct (f x), (f y); reflexivity.
  - rewrite IH1. exact IH2.
Qed.

Lemma first_occurrences_length (ls : list string) :
  (List.length (first_occurrences ls) <= List.length ls)%nat.
Proof.
  induction ls as [|a ls IH]; simpl; [lia|].
  pose proof (filter_length_le (fun k => negb (String.eqb k a)) (first_occurrences ls)). lia.
Qed.

Lemma first_occurrences_app (la lb : list string) :
  exists rest, first_occurrences (la ++ lb) = first_occurrences la ++ rest.
Proof.
  induction la as [|a la [rest IH]]; simpl.
  - exists (first_occurrences lb). reflexivity.
  - rewrite IH, filter_app. eexists. reflexivity.
Qed.

Lemma last_app_cases {A : Type} (x y : list A) (d : A) :
  last (x ++ y) d = match y with [] => last x d | _ => last y d end.
Proof.
  destruct y as [|b y]; [rewrite app_nil_r; reflexivity|].
  induction x as [|a x IH]; [reflexivity|].
  simpl in *. destruct (x ++ b :: y) eqn:E; [destruct x; discriminate|]. exact IH.
Qed.

Lemma last_In {A : Type} (l : list A) (d : A) : l <> [] -> In (last l d) l.
Proof.
  induction l as [|a l IH]; intros H; [contradiction|].
  destruct l as [|b l]; [left; reflexivity|].
  right. apply IH. discriminate.
Qed.

Section AggregateMore.

Variable Date_time : JS.value -> option Z.
Variable month_short : Z -> string.

Let label_of := label_of Date_time month_short.
Let labels := labels Date_time month_short.
Let mapped_to := mapped_to Date_time month_short.
Let last_rate := last_rate Date_time month_short.
Let bucket_for := bucket_for Date_time month_short.
Let aggregateMonthly := aggregateMonthly Date_time month_short.

Lemma mapped_to_nil_iff (l : string) (arr : list Rec.t) :
  mapped_to l arr = [] <-> ~ In l (labels arr).
Proof.
  unfold mapped_to, Dashboard.mapped_to, labels, Dashboard.labels. fold label_of.
  induction arr as [|o arr IH]; simpl; [tauto|].
  destruct (String.eqb_spec (label_of o) l) as [E|E].
  - split; [discriminate|]. intros H. exfalso. apply H. left. exact E.
  - rewrite IH. tauto.
Qed.

Lemma count_in_aggregate (arr : list Rec.t) (l : string) :
  count_in (aggregateMonthly arr) l = List.length (mapped_to l arr).
Proof.
  unfold count_in, aggregateMonthly. rewrite aggregateMonthly_tabulated.
  fold labels. fold bucket_for.
  assert (E : filter (fun b => String.eqb (Bucket.month b) l)
                     (map (bucket_for arr) (key_order (first_occurrences (labels arr))))
              = map (bucket_for arr)
                    (filter (fun k => String.eqb k l)
                            (key_order (first_occurrences (labels arr))))).
  { generalize (key_order (first_occurrences (labels arr))). intros ks.
    induction ks as [|k ks IH]; simpl; [reflexivity|].
    destruct (String.eqb k l); simpl; rewrite IH; reflexivity. }
  rewrite E, filter_key_NoDup by apply NoDup_key_order, NoDup_first_occurrences.
  rewrite existsb_key_order, existsb_first_occurrences.
  destruct (existsb (String.eqb l) (labels arr)) eqn:Hl; simpl.
  - unfold bucket_for, Dashboard.bucket_for. simpl. fold mapped_to. lia.
  - symmetry. apply length_zero_iff_nil. apply mapped_to_nil_iff.
    intros Hin. apply existsb_eqb_In in Hin. congruence.
Qed.

Lemma sum_of_label_counts (ks : list string) (arr : list Rec.t) :
  NoDup ks -> (forall o, In o arr -> In (label_of o) ks) ->
  list_sum (map (fun l => List.length (mapped_to l arr)) ks) = List.length arr.
Proof.
  intros Hnd. induction arr as [|o arr IH]; intros Hcover.
  - clear. simpl. induction ks as [|k ks IHk]; simpl; [reflexivity | exact IHk].
  - assert (E : forall l, List.length (mapped_to l (o :: arr))
                          = ((if String.eqb (label_of o) l then 1 else 0)
                             + List.length (mapped_to l arr))%nat).
    { intros l. unfold mapped_to, Dashboard.mapped_to. simpl. fold label_of.
      destruct (String.eqb (label_of o) l); reflexivity. }
    rewrite (map_ext _ _ E), list_sum_map_add.
    rewrite list_sum_indicator;
      [| exact Hnd | apply Hcover; left; reflexivity].
    rewrite IH; [reflexivity|]. intros o' Ho'. apply Hcover. right. exact Ho'.
Qed.

Lemma total_count_aggregate (arr : list Rec.t) :
  total_count (aggregateMonthly arr) = List.length arr.
Proof.
  unfold total_count, aggregateMonthly. rewrite aggregateMonthly_tabulated, map_map.
  apply sum_of_label_counts; [apply NoDup_key_order, NoDup_first_occurrences|].
  intros o Ho. apply in_key_order, in_first_occurrences. apply in_map. exact Ho.
Qed.

(** X1. No record is lost or counted twice: the counts of the buckets add
    up to the number of records, and the count kept under a label is the
    number of records with that label (0 for a label with no bucket). *)
Theorem aggregateMonthly_counts_every_record_once (arr : list Rec.t) (l : string) :
  total_count (aggregateMonthly arr) = List.length arr
  /\ count_in (aggregateMonthly arr) l = List.length (mapped_to l arr).
Proof.
  split; [apply total_count_aggregate | apply count_in_aggregate].
Qed.

(** X2. There is no empty bucket and no bucket without a record: every
    count is between 1 and the number of records, there are at most as many
    buckets as records, and the result is empty exactly for the empty
    input. *)
Theorem aggregateMonthly_buckets_are_inhabited (arr : list Rec.t) :
  (forall b, In b (aggregateMonthly arr) ->
             (1 <= Bucket.count b <= List.length arr)%nat)
  /\ (List.length (aggregateMonthly arr) <= List.length arr)%nat
  /\ (aggregateMonthly arr = [] <-> arr = []).
Proof.
  split; [|split].
  - intros b Hb. apply aggregateMonthly_bucket in Hb. destruct Hb as [Hl Hb].
    rewrite Hb. simpl. fold mapped_to. split.
    + destruct (mapped_to (Bucket.month b) arr) eqn:E; [|simpl; lia].
      apply mapped_to_nil_iff in E. contradiction.
    + apply filter_length_le.
  - unfold aggregateMonthly. rewrite aggregateMonthly_tabulated, length_map.
    rewrite (Permutation_length (key_order_Permutation _)).
    etransitivity; [apply first_occurrences_length|].
    unfold Dashboard.labels. rewrite length_map. lia.
  - split.
    + intros H. destruct arr as [|o arr]; [reflexivity|]. exfalso.
      assert (Hin : In (bucket_for (o :: arr) (label_of o)) (aggregateMonthly (o :: arr)))
        by (apply bucket_in_aggregateMonthly; left; reflexivity).
      rewrite H in Hin. destruct Hin.
    + intros ->. reflexivity.
Qed.

(** X3. The counts do not depend on the order of the records: a
    rearranged input gives the same labels, the same number of buckets and
    the same count under every label (only the order of the buckets and
    the rates can differ). *)
Theorem aggregateMonthly_counts_ignore_order (arr arr' : list Rec.t) :
  Permutation arr arr' ->
  (forall l, count_in (aggregateMonthly arr) l = count_in (aggregateMonthly arr') l)
  /\ (forall l, In l (map Bucket.month (aggregateMonthly arr))
                <-> In l (map Bucket.month (aggregateMonthly arr')))
  /\ List.length (aggregateMonthly arr) = List.length (aggregateMonthly arr').
Proof.
  intros HP.
  assert (Hlabels : forall l, In l (map Bucket.month (aggregateMonthly arr))
                              <-> In l (map Bucket.month (aggregateMonthly arr'))).
  { intros l. unfold aggregateMonthly. rewrite !in_aggregateMonthly_months.
    unfold Dashboard.labels.
    split; apply Permutation_in; apply Permutation_map;
      [exact HP | apply Permutation_sym; exact HP]. }
  split; [|split].
  - intros l. rewrite !count_in_aggregate. apply filter_length_Permutation. exact HP.
  - exact Hlabels.
  - rewrite <- (length_map Bucket.month (aggregateMonthly arr)).
    rewrite <- (length_map Bucket.month (aggregateMonthly arr')).
    apply Permutation_length. apply NoDup_Permutation.
    + apply NoDup_aggregateMonthly_months.
    + apply NoDup_aggregateMonthly_months.
    + exact Hlabels.
Qed.

Lemma bucket_for_app (a b : list Rec.t) (l : string) :
  bucket_for (a ++ b) l
  = {| Bucket.month := l;
       Bucket.count := Bucket.count (bucket_for a l) + Bucket.count (bucket_for b l);
       Bucket.rate := match carried_rates (mapped_to l b) with
                      | [] => Bucket.rate (bucket_for a l)
                      | _ => Bucket.rate (bucket_for b l)
                      end |}.
Proof.
  unfold bucket_for, Dashboard.bucket_for, Dashboard.last_rate. simpl.
  fold mapped_to.
  assert (E : mapped_to l (a ++ b) = mapped_to l a ++ mapped_to l b)
    by (unfold mapped_to, Dashboard.mapped_to; apply filter_app).
  rewrite E, length_app.
  assert (C : carried_rates (mapped_to l a ++ mapped_to l b)
              = carried_rates (mapped_to l a) ++ carried_rates (mapped_to l b))
    by (unfold carried_rates; rewrite filter_app, map_app; reflexivity).
  rewrite C, last_app_cases. reflexivity.
Qed.

(** X4. Aggregating two batches in one call: when no month label is an
    array index, the buckets of the first batch keep their places and new
    labels follow them; with any labels, under every label the count is
    the sum of the two counts, and the rate is the one of the second batch
    when a record of the second batch carries a rate for that label, the
    one of the first batch otherwise. *)
Theorem aggregateMonthly_of_two_batches (a b : list Rec.t) :
  ((forall l, In l (labels (a ++ b)) -> array_index l = None) ->
   exists rest, map Bucket.month (aggregateMonthly (a ++ b))
                = map Bucket.month (aggregateMonthly a) ++ rest)
  /\ (forall l, count_in (aggregateMonthly (a ++ b)) l
                = (count_in (aggregateMonthly a) l + count_in (aggregateMonthly b) l)%nat)
  /\ (forall x, In x (aggregateMonthly (a ++ b)) ->
                Bucket.rate x
                = match carried_rates (mapped_to (Bucket.month x) b) with
                  | [] => last_rate (Bucket.month x) a
                  | _ => last_rate (Bucket.month x) b
                  end).
Proof.
  split; [|split].
  - intros Hno. unfold aggregateMonthly.
    rewrite !aggregateMonthly_months_no_index.
    + unfold Dashboard.labels. rewrite map_app. apply first_occurrences_app.
    + intros l Hl. apply Hno. unfold labels, Dashboard.labels.
      rewrite map_app. apply in_or_app. left. exact Hl.
    + exact Hno.
  - intros l. rewrite !count_in_aggregate.
    unfold mapped_to, Dashboard.mapped_to. rewrite filter_app, length_app. reflexivity.
  - intros x Hx. apply aggregateMonthly_bucket in Hx. destruct Hx as [_ Hx].
    rewrite Hx at 1. fold bucket_for. rewrite bucket_for_app. reflexivity.
Qed.

Lemma carried_rates_truthy (arr : list Rec.t) (r : JS.value) :
  In r (carried_rates arr) ->
  ToBoolean r = true /\ exists o, In o arr /\ Rec.rate o = r.
Proof.
  unfold carried_rates. rewrite in_map_iff. intros [o [<- Ho]].
  apply filter_In in Ho. destruct Ho as [Hin Ht].
  split; [exact Ht|]. exists o. split; [exact Hin | reflexivity].
Qed.

Lemma rate_zero_or_carried (arr : list Rec.t) (b : Bucket.t) :
  In b (aggregateMonthly arr) ->
  (carried_rates (mapped_to (Bucket.month b) arr) = [] /\ Bucket.rate b = VNum plus_zero)
  \/ (ToBoolean (Bucket.rate b) = true
      /\ exists o, In o arr /\ label_of o = Bucket.month b /\ Rec.rate o = Bucket.rate b).
Proof.
  intros Hb. apply aggregateMonthly_bucket in Hb. destruct Hb as [_ Hb].
  assert (Hr : Bucket.rate b
               = last (carried_rates (mapped_to (Bucket.month b) arr)) (VNum plus_zero))
    by (rewrite Hb at 1; reflexivity).
  rewrite Hr. clear Hr Hb.
  destruct (carried_rates (mapped_to (Bucket.month b) arr)) as [|r rs] eqn:E.
  - left. split; reflexivity.
  - right.
    assert (Hin : In (last (r :: rs) (VNum plus_zero))
                     (carried_rates (mapped_to (Bucket.month b) arr)))
      by (rewrite E; apply last_In; discriminate).
    apply carried_rates_truthy in Hin. destruct Hin as [Ht [o [Ho Hr]]].
    split; [exact Ht|]. exists o.
    unfold mapped_to, Dashboard.mapped_to in Ho. apply filter_In in Ho.
    destruct Ho as [Ho Hl]. apply String.eqb_eq in Hl.
    split; [exact Ho | split; [exact Hl | exact Hr]].
Qed.

(** X5. A bucket never holds a rate that fails the test [if (o.rate)],
    apart from the initial 0: either no record of its label carries a rate
    and the rate is the number 0, or the rate passes the test and is the
    rate of one of the records of that label.  So a rate of [0], [NaN],
    [""], [null], [false] or a missing rate never replaces a rate. *)
Theorem aggregateMonthly_rate_is_zero_or_carried (arr : list Rec.t) (b : Bucket.t) :
  In b (aggregateMonthly arr) ->
  (carried_rates (mapped_to (Bucket.month b) arr) = [] /\ Bucket.rate b = VNum plus_zero)
  \/ (ToBoolean (Bucket.rate b) = true
      /\ exists o, In o arr /\ label_of o = Bucket.month b /\ Rec.rate o = Bucket.rate b).
Proof. apply rate_zero_or_carried. Qed.

End AggregateMore.

(* ===================================================================== *)
(** * Further properties of [percentage] and [averageHours] *)
(* ===================================================================== *)

Lemma digits2_pos_size (p : positive) : digits2_pos p = Pos.size p.
Proof. induction p; simpl; congruence. Qed.

Lemma digits2_pos_iter (k : positive) :
  forall p, digits2_pos (Pos.iter xO p k) = (digits2_pos p + k)%positive.
Proof.
  induction k using Pos.peano_ind; intros p.
  - simpl. lia.
  - rewrite Pos.iter_succ. simpl. rewrite IHk. lia.
Qed.

Lemma digits2_pos_bound (p : positive) :
  Zpos p < 2 ^ 53 -> Zpos (digits2_pos p) <= 53.
Proof.
  intros Hp. rewrite digits2_pos_size.
  destruct (Z_le_gt_dec (Zpos (Pos.size p)) 53) as [H|H]; [exact H|exfalso].
  pose proof (Pos.size_le p) as Hs.
  assert (H0 : 2 ^ 54 <= 2 ^ Zpos (Pos.size p)) by (apply Z.pow_le_mono_r; lia).
  assert (H1 : Zpos (2 ^ Pos.size p) <= Zpos p~0) by exact Hs.
  rewrite Pos2Z.inj_pow in H1. change (2 ^ 54) with (2 * 2 ^ 53) in H0. lia.
Qed.

(** Rounding a 53-bit mantissa with an exponent in range changes nothing. *)
Lemma binary_round_aux_exact (sx : bool) (m : positive) (e : Z) :
  Zpos (digits2_pos m) = 53 -> -1074 <= e <= 971 ->
  binary_round_aux JS.prec JS.emax sx (Zpos m) e loc_Exact = S754_finite sx m e.
Proof.
  intros Hd He.
  assert (Hf : fexp JS.prec JS.emax (Zpos (digits2_pos m) + e) - e = 0).
  { unfold fexp, emin, JS.prec, JS.emax. rewrite Hd. lia. }
  unfold binary_round_aux, shr_fexp. cbn [Zdigits2 shr_record_of_loc].
  rewrite Hf. cbn [shr shr_m loc_of_shr_record round_nearest_even Zdigits2 shr_record_of_loc].
  rewrite Hf. cbn [shr shr_m].
  destruct (Z.leb_spec e (JS.emax - JS.prec)); [reflexivity|].
  unfold JS.emax, JS.prec in *. lia.
Qed.

(** An array length as a number: finite, positive, with a full mantissa. *)
Lemma of_Z_small (p : positive) :
  Zpos p < 2 ^ 53 ->
  exists m e, of_Z (Zpos p) = S754_finite false m e
              /\ Zpos (digits2_pos m) = 53 /\ -52 <= e <= 0.
Proof.
  intros Hp. pose proof (digits2_pos_bound p Hp) as Hd.
  unfold of_Z, binary_normalize, binary_round.
  assert (Hf : fexp JS.prec JS.emax (Zpos (digits2_pos p) + 0) = Zpos (digits2_pos p) - 53).
  { unfold fexp, emin, JS.prec, JS.emax. lia. }
  rewrite Hf. unfold shl_align.
  destruct (Zpos (digits2_pos p) - 53 - 0) as [|k|k] eqn:E.
  - exists p, 0. split; [apply binary_round_aux_exact; lia | split; lia].
  - lia.
  - exists (Pos.iter xO p k), (Zpos (digits2_pos p) - 53).
    assert (Hk : Zpos (digits2_pos (Pos.iter xO p k)) = 53)
      by (rewrite digits2_pos_iter; lia).
    split; [apply binary_round_aux_exact; [exact Hk | lia] | split; [exact Hk | lia]].
Qed.

(** A number with a full mantissa divided by itself is exactly 1. *)
Lemma div_self (m : positive) (e : Z) :
  Zpos (digits2_pos m) = 53 ->
  div (S754_finite false m e) (S754_finite false m e) = of_Z 1.
Proof.
  intros Hd. unfold div, SFdiv, SFdiv_core_binary. cbn [Zdigits2]. rewrite Hd.
  replace (53 + e - (53 + e)) with 0 by lia.
  replace (e - e) with 0 by lia.
  change (Z.min (fexp JS.prec JS.emax 0) 0) with (-53).
  change (0 - -53) with 53.
  rewrite Z.shiftl_mul_pow2 by lia.
  rewrite (surjective_pairing (Z.div_eucl (Zpos m * 2 ^ 53) (Zpos m))).
  change (fst (Z.div_eucl (Zpos m * 2 ^ 53) (Zpos m))) with (Zpos m * 2 ^ 53 / Zpos m).
  change (snd (Z.div_eucl (Zpos m * 2 ^ 53) (Zpos m))) with ((Zpos m * 2 ^ 53) mod Zpos m).
  rewrite (Z.mul_comm (Zpos m)), Z.div_mul, Z.mod_mul by lia.
  assert (Hl : new_location (Zpos m) 0 = loc_Exact)
    by (unfold new_location; destruct (Z.even (Zpos m)); reflexivity).
  rewrite Hl. vm_compute. reflexivity.
Qed.

Lemma percentage_none_all (n : nat) :
  (0 < n)%nat -> Z.of_nat n < 2 ^ 53 ->
  percentage (of_Z 0) (of_Z (Z.of_nat n)) = VStr "0.0"
  /\ percentage (of_Z (Z.of_nat n)) (of_Z (Z.of_nat n)) = VStr "100.0".
Proof.
  intros Hpos Hlt.
  destruct (Z.of_nat n) as [|p|p] eqn:E; try lia.
  destruct (of_Z_small p Hlt) as [m [e [Hx [Hd He]]]].
  unfold percentage. rewrite Hx.
  change (num_strict_eq (S754_finite false m e) plus_zero) with false. cbv iota.
  split.
  - change (div (of_Z 0) (S754_finite false m e)) with (S754_zero false).
    vm_compute. reflexivity.
  - rewrite div_self by exact Hd. vm_compute. reflexivity.
Qed.

(** X6. The two ends of the scale for array lengths: with at least one
    order (and fewer than 2^53), no returns give "0.0" and as many returns
    as orders give "100.0". *)
Theorem percentage_of_none_and_of_all (n : nat) :
  (0 < n)%nat -> Z.of_nat n < 2 ^ 53 ->
  percentage (of_Z 0) (of_Z (Z.of_nat n)) = VStr "0.0"
  /\ percentage (of_Z (Z.of_nat n)) (of_Z (Z.of_nat n)) = VStr "100.0".
Proof. apply percentage_none_all. Qed.

Lemma percentage_of_none_and_of_all_witness :
  ((0 < 3)%nat /\ Z.of_nat 3 < 2 ^ 53)
  /\ percentage (of_Z 0) (of_Z (Z.of_nat 3)) = VStr "0.0"
  /\ percentage (of_Z (Z.of_nat 3)) (of_Z (Z.of_nat 3)) = VStr "100.0".
Proof.
  assert (H1 : (0 < 3)%nat) by lia.
  assert (H2 : Z.of_nat 3 < 2 ^ 53) by (vm_compute; reflexivity).
  split; [split; assumption|].
  exact (percentage_of_none_and_of_all 3 H1 H2).
Defined.

Lemma fold_add_nan (arr : list JS.number) :
  fold_left (fun a b => add a b) arr S754_nan = S754_nan.
Proof. induction arr as [|x arr IH]; simpl; [reflexivity | exact IH]. Qed.

Lemma add_nan_r (a : JS.number) : add a S754_nan = S754_nan.
Proof. destruct a; reflexivity. Qed.

Lemma fold_add_meets_nan (arr : list JS.number) :
  In S754_nan arr -> forall a, fold_left (fun a b => add a b) arr a = S754_nan.
Proof.
  induction arr as [|x arr IH]; intros Hin a; [destruct Hin|].
  simpl. destruct Hin as [->|Hin].
  - rewrite add_nan_r. apply fold_add_nan.
  - apply IH. exact Hin.
Qed.

Lemma div_nan_l (b : JS.number) : div S754_nan b = S754_nan.
Proof. reflexivity. Qed.

Lemma mul_nan_l (b : JS.number) : mul S754_nan b = S754_nan.
Proof. reflexivity. Qed.

Lemma div_nan_r (a : JS.number) : div a S754_nan = S754_nan.
Proof. destruct a; reflexivity. Qed.

(** X7. NaN goes through both helpers as the text "NaN": one NaN among
    the hours makes the average "NaN", whatever the other hours are, and a
    NaN part or total makes the percentage "NaN" (a total of 0 still gives
    the number 0). *)
Theorem helpers_show_NaN (arr : list JS.number) (part total : JS.number) :
  (In S754_nan arr -> averageHours arr = VStr "NaN")
  /\ (num_strict_eq total plus_zero = false -> percentage S754_nan total = VStr "NaN")
  /\ percentage part S754_nan = VStr "NaN".
Proof.
  split; [|split].
  - intros Hin. unfold averageHours.
    destruct arr as [|x arr]; [destruct Hin|].
    change (List.length (x :: arr) =? 0)%nat with false. cbv iota.
    rewrite (fold_add_meets_nan (x :: arr) Hin). reflexivity.
  - intros Hz. unfold percentage. rewrite Hz. reflexivity.
  - unfold percentage. change (num_strict_eq S754_nan plus_zero) with false. cbv iota.
    rewrite div_nan_r. reflexivity.
Qed.

Lemma helpers_show_NaN_witness :
  (In S754_nan [of_Z 2; S754_nan; of_Z 4]
   /\ averageHours [of_Z 2; S754_nan; of_Z 4] = VStr "NaN")
  /\ (num_strict_eq (of_Z 3) plus_zero = false
      /\ percentage S754_nan (of_Z 3) = VStr "NaN").
Proof.
  assert (H1 : In S754_nan [of_Z 2; S754_nan; of_Z 4]) by (right; left; reflexivity).
  assert (H2 : num_strict_eq (of_Z 3) plus_zero = false) by (vm_compute; reflexivity).
  split; (split; [assumption|]).
  - exact (proj1 (helpers_show_NaN [of_Z 2; S754_nan; of_Z 4] plus_zero plus_zero) H1).
  - exact (proj1 (proj2 (helpers_show_NaN [] plus_zero (of_Z 3))) H2).
Defined.

(** ** Reading the text of [toFixed(1)] back *)

Section ReadingBack.

Local Open Scope string_scope.
Local Open Scope Z_scope.

Lemma all_digits_app (a b : string) :
  all_digits (a ++ b) = all_digits a && all_digits b.
Proof.
  induction a as [|c a IH]; simpl; [reflexivity|].
  destruct (digit_of c); [exact IH | reflexivity].
Qed.

Lemma all_digits_digits (n : Z) : 0 <= n -> all_digits (digits n) = true.
Proof.
  revert n. apply (Zlt_0_ind (fun n => all_digits (digits n) = true)).
  intros n IH Hn.
  destruct (Z.lt_ge_cases n 10) as [H|H].
  - rewrite digits_small by exact H. cbn [all_digits].
    rewrite digit_of_digit_char by lia. reflexivity.
  - rewrite digits_step by exact H. rewrite all_digits_app.
    rewrite IH by (split; [apply Z.div_pos; lia | apply Z.div_lt_upper_bound; lia]).
    cbn [all_digits andb]. rewrite digit_of_digit_char by (apply Z.mod_pos_bound; lia).
    reflexivity.
Qed.

Lemma split_at_point_digits (a b : string) :
  all_digits a = true -> split_at_point (a ++ "." ++ b) = Some (a, b).
Proof.
  induction a as [|c a IH]; intros Ha; [reflexivity|].
  cbn [all_digits] in Ha. cbn [append split_at_point].
  destruct (Ascii.eqb_spec c "."%char) as [->|_]; [discriminate Ha|].
  destruct (digit_of c); [|discriminate Ha].
  change (a ++ String "."%char b) with (a ++ "." ++ b). rewrite (IH Ha). reflexivity.
Qed.

Lemma unsigned_value_of_tenths (a b : Z) :
  0 <= a -> 0 <= b < 10 ->
  unsigned_value (digits a ++ "." ++ digits b)
  = Some (inject_Z a + inject_Z b / inject_Z 10)%Q.
Proof.
  intros Ha Hb. unfold unsigned_value.
  rewrite split_at_point_digits by (apply all_digits_digits; exact Ha).
  rewrite !number_of_digits by lia.
  rewrite (digits_small b) by lia. reflexivity.
Qed.

Lemma decimal_value_unsigned (a : Z) (rest : string) :
  0 <= a -> decimal_value (digits a ++ rest) = unsigned_value (digits a ++ rest).
Proof.
  intros Ha. pose proof (all_digits_digits a Ha) as Hd.
  destruct (digits a) as [|c s] eqn:E; [pose proof (digits_nonempty a) as Hn;
                                          rewrite E in Hn; simpl in Hn; lia|].
  cbn [all_digits] in Hd. cbn [append]. unfold decimal_value.
  destruct (Ascii.eqb_spec c "-"%char) as [->|Hne]; [discriminate Hd|].
  destruct c as [[] [] [] [] [] [] [] []]; try reflexivity. contradiction Hne. reflexivity.
Qed.

Lemma tenths_within (V : Q) (n : Z) :
  0 <= n ->
  (10 * V - (1#2) < inject_Z n)%Q -> (inject_Z n <= 10 * V + (1#2))%Q ->
  (V - (1#20) <= inject_Z (n / 10) + inject_Z (n mod 10) / inject_Z 10)%Q
  /\ (inject_Z (n / 10) + inject_Z (n mod 10) / inject_Z 10 <= V + (1#20))%Q
  /\ (- V - (1#20) <= - (inject_Z (n / 10) + inject_Z (n mod 10) / inject_Z 10))%Q
  /\ (- (inject_Z (n / 10) + inject_Z (n mod 10) / inject_Z 10) <= - V + (1#20))%Q.
Proof.
  intros Hn H1 H2.
  rewrite (Z.div_mod n 10) in H1, H2 by lia.
  rewrite inject_Z_plus, inject_Z_mult in H1, H2.
  change (inject_Z 10) with 10%Q in *.
  unfold Qdiv. change (/ 10)%Q with (1#10)%Q.
  repeat split; lra.
Qed.

(** The text that [toFixed(1)] gives for a finite number below 10^21 is a
    decimal numeral, and the rational it denotes is within 1/20 of the
    number. *)
Lemma toFixed_reads_back (x : JS.number) (v : Q) :
  below_1e21 x = true -> exact_value x = Some v ->
  reads_within_a_twentieth (Number_toFixed 1 x) v.
Proof.
  intros Hs Hv. unfold reads_within_a_twentieth.
  destruct x as [s|s| |s m e]; try discriminate Hs.
  - injection Hv as <-.
    assert (L : (10 * 0 - (1#2) < inject_Z 0)%Q) by reflexivity.
    assert (U : (inject_Z 0 <= 10 * 0 + (1#2))%Q) by discriminate.
    destruct (tenths_within 0%Q 0 ltac:(lia) L U) as [B1 [B2 _]].
    exists (inject_Z 0 + inject_Z 0 / inject_Z 10)%Q.
    split; [reflexivity | split; [exact B1 | exact B2]].
  - cbn [below_1e21] in Hs. apply negb_true_iff in Hs.
    unfold Number_toFixed. rewrite Hs.
    cbn [exact_value] in Hv. injection Hv as <-.
    pose proof (nearest_scaled_nonneg 1 m e) as Hn.
    pose proof (nearest_scaled_bounds m e) as [Hlo Hhi].
    rewrite fixed_digits_one by exact Hn.
    set (n := nearest_scaled 1 m e) in *.
    assert (Ha : 0 <= n / 10) by (apply Z.div_pos; lia).
    assert (Hb : 0 <= n mod 10 < 10) by (apply Z.mod_pos_bound; lia).
    destruct (tenths_within (magnitude m e) n Hn Hlo Hhi) as [B1 [B2 [B3 B4]]].
    destruct s.
    + exists (- (inject_Z (n / 10) + inject_Z (n mod 10) / inject_Z 10))%Q.
      split; [|split; assumption].
      change (sign_text true ++ digits (n / 10) ++ "." ++ digits (n mod 10))
        with (String "-"%char (digits (n / 10) ++ "." ++ digits (n mod 10))).
      cbn [decimal_value]. rewrite unsigned_value_of_tenths by assumption. reflexivity.
    + exists (inject_Z (n / 10) + inject_Z (n mod 10) / inject_Z 10)%Q.
      split; [|split; assumption].
      change (sign_text false ++ digits (n / 10) ++ "." ++ digits (n mod 10))
        with (digits (n / 10) ++ "." ++ digits (n mod 10)).
      rewrite decimal_value_unsigned by exact Ha.
      apply unsigned_value_of_tenths; assumption.
Qed.

End ReadingBack.

(** X8. What the helpers return can be read back: when the product (the
    mean) is finite and below 10^21, the text is a decimal numeral that
    denotes a rational within 1/20 of the binary64 product (mean). *)
Theorem helpers_text_reads_back (part total : JS.number) (arr : list JS.number) (v w : Q) :
  (num_strict_eq total plus_zero = false ->
   below_1e21 (mul (div part total) (of_Z 100)) = true ->
   exact_value (mul (div part total) (of_Z 100)) = Some v ->
   exists s, percentage part total = VStr s /\ reads_within_a_twentieth s v)
  /\ (arr <> [] ->
      below_1e21 (div (fold_left add arr plus_zero) (of_Z (Z.of_nat (List.length arr)))) = true ->
      exact_value (div (fold_left add arr plus_zero) (of_Z (Z.of_nat (List.length arr))))
      = Some w ->
      exists s, averageHours arr = VStr s /\ reads_within_a_twentieth s w).
Proof.
  split.
  - intros Hz Hs Hv. unfold percentage. rewrite Hz.
    eexists. split; [reflexivity|]. apply toFixed_reads_back; assumption.
  - intros Hne Hs Hw. unfold averageHours.
    destruct arr as [|a arr]; [contradiction|].
    change (List.length (a :: arr) =? 0)%nat with false. cbv iota.
    eexists. split; [reflexivity|]. apply toFixed_reads_back; assumption.
Qed.

Lemma helpers_text_reads_back_witness :
  let x := mul (div (of_Z 1) (of_Z 3)) (of_Z 100) in
  let v := match exact_value x with Some v => v | None => 0%Q end in
  (num_strict_eq (of_Z 3) plus_zero = false /\ below_1e21 x = true /\ exact_value x = Some v)
  /\ exists s, percentage (of_Z 1) (of_Z 3) = VStr s /\ reads_within_a_twentieth s v.
Proof.
  intros x v.
  assert (H1 : num_strict_eq (of_Z 3) plus_zero = false) by (vm_compute; reflexivity).
  assert (H2 : below_1e21 x = true) by (vm_compute; reflexivity).
  assert (H3 : exact_value x = Some v) by (vm_compute; reflexivity).
  split; [split; [exact H1 | split; [exact H2 | exact H3]]|].
  exact (proj1 (helpers_text_reads_back (of_Z 1) (of_Z 3) [] v 0%Q) H1 H2 H3).
Defined.

(* ===================================================================== *)
(** * Properties of the page *)
(* ===================================================================== *)

Section ConvertFacts.

Variable Number_toString : JS.number -> string.
Variable StringToNumber : string -> JS.number.

Let ToNumber := Convert.ToNumber StringToNumber.
Let plus := Convert.plus Number_toString StringToNumber.
Let averageHours_of := Convert.averageHours_of Number_toString StringToNumber.

Lemma fold_plus_without_strings (arr : list JS.value) :
  (forall v s, In v arr -> v <> VStr s) ->
  forall a, fold_left (fun a b => plus a b) arr (VNum a)
            = VNum (fold_left (fun a b => add a b) (map ToNumber arr) a).
Proof.
  induction arr as [|x arr IH]; intros Hns a; [reflexivity|].
  assert (E : plus (VNum a) x = VNum (add a (ToNumber x))).
  { destruct x as [| |b|n|s]; try reflexivity.
    exfalso. apply (Hns (VStr s) s); [left; reflexivity | reflexivity]. }
  cbn [fold_left map]. rewrite E. apply IH. intros v s Hv. apply Hns. right. exact Hv.
Qed.

Lemma map_ToNumber_numbers (arr : list JS.number) : map ToNumber (map VNum arr) = arr.
Proof. rewrite map_map. apply map_id. Qed.

(** X9. The average on the values the page hands over: on numbers it is
    [averageHours]; and when no value is a string, one record without
    [fulfillmentHrs] (an [undefined] among the values) makes the result the
    text "NaN". *)
Theorem averageHours_of_missing_hours (arr : list JS.value) (xs : list JS.number) :
  averageHours_of (map VNum xs) = averageHours xs
  /\ ((forall v s, In v arr -> v <> VStr s) ->
      In VUndefined arr ->
      averageHours_of arr = VStr "NaN").
Proof.
  split.
  - unfold averageHours_of, Convert.averageHours_of, averageHours.
    rewrite length_map. fold plus.
    rewrite fold_plus_without_strings.
    + fold ToNumber. rewrite map_ToNumber_numbers. reflexivity.
    + intros v s Hv. apply in_map_iff in Hv. destruct Hv as [n [<- _]]. discriminate.
  - intros Hns Hu. unfold averageHours_of, Convert.averageHours_of. fold plus.
    destruct arr as [|x arr]; [destruct Hu|].
    change (List.length (x :: arr) =? 0)%nat with false. cbv iota.
    rewrite (fold_plus_without_strings (x :: arr) Hns).
    rewrite fold_add_meets_nan.
    + reflexivity.
    + change S754_nan with (ToNumber VUndefined). apply in_map. exact Hu.
Qed.

End ConvertFacts.

Lemma averageHours_of_missing_hours_witness :
  let nts := fun _ : JS.number => ""%string in
  let stn := fun _ : string => S754_nan in
  let arr := [VNum (of_Z 2); VUndefined; VNum (of_Z 4)] in
  ((forall v s, In v arr -> v <> VStr s) /\ In VUndefined arr)
  /\ Convert.averageHours_of nts stn arr = VStr "NaN".
Proof.
  intros nts stn arr.
  assert (H1 : forall v s, In v arr -> v <> VStr s).
  { intros v s [<-|[<-|[<-|[]]]]; discriminate. }
  assert (H2 : In VUndefined arr) by (right; left; reflexivity).
  split; [split; assumption|].
  exact (proj2 (averageHours_of_missing_hours nts stn arr []) H1 H2).
Defined.

Lemma indexed_length {A : Type} (l : list A) : List.length (Page.indexed l) = List.length l.
Proof. unfold Page.indexed. rewrite length_combine, length_seq. lia. Qed.

Lemma indexed_keys {A : Type} (l : list A) :
  map fst (Page.indexed l) = seq 0 (List.length l).
Proof.
  unfold Page.indexed. generalize 0%nat.
  induction l as [|a l IH]; intros n; simpl; [reflexivity | rewrite IH; reflexivity].
Qed.

Lemma indexed_elements {A : Type} (l : list A) : map snd (Page.indexed l) = l.
Proof.
  unfold Page.indexed. generalize 0%nat.
  induction l as [|a l IH]; intros n; simpl; [reflexivity | rewrite IH; reflexivity].
Qed.

Lemma indexed_nth {A : Type} (l : list A) (i : nat) (a : A) :
  nth_error l i = Some a -> nth_error (Page.indexed l) i = Some (i, a).
Proof.
  unfold Page.indexed.
  assert (G : forall n, nth_error l i = Some a ->
                        nth_error (combine (seq n (List.length l)) l) i = Some ((n + i)%nat, a)).
  { revert i. induction l as [|b l IH]; intros i n H; [destruct i; discriminate|].
    destruct i as [|i]; simpl in *.
    - injection H as ->. rewrite Nat.add_0_r. reflexivity.
    - rewrite (IH i (S n) H). f_equal. f_equal. lia. }
  apply (G 0%nat).
Qed.

(** X10. [SectionTable] keeps the rows as they are: one [tr] for each row
    in order, keyed 0, 1, 2, ... (so the keys of the rows, and of the cells
    of a row, never repeat), and the cells of a row unchanged; a row is not
    padded or cut to the number of headers.  The key of a header is its
    text, so the header keys are distinct exactly when the headers are. *)
Theorem SectionTable_keeps_rows (headers : list string) (rows : list (list Page.cell)) :
  map snd (Page.thead (Page.SectionTable headers rows)) = headers
  /\ map fst (Page.tbody (Page.SectionTable headers rows)) = seq 0 (List.length rows)
  /\ map (fun r => map snd (snd r)) (Page.tbody (Page.SectionTable headers rows)) = rows
  /\ NoDup (map fst (Page.tbody (Page.SectionTable headers rows)))
  /\ Forall (fun r => NoDup (map fst (snd r))) (Page.tbody (Page.SectionTable headers rows))
  /\ (NoDup (map fst (Page.thead (Page.SectionTable headers rows))) <-> NoDup headers).
Proof.
  unfold Page.SectionTable. cbn [Page.thead Page.tbody].
  assert (K : map fst (map (fun r : nat * list Page.cell => (fst r, Page.indexed (snd r)))
                           (Page.indexed rows))
              = seq 0 (List.length rows)).
  { rewrite map_map. cbn [fst]. apply indexed_keys. }
  split; [|split; [|split; [|split; [|split]]]].
  - rewrite map_map. cbn [snd]. apply map_id.
  - exact K.
  - rewrite map_map. cbn [snd].
    rewrite (map_ext _ (fun r => snd r)) by (intros r; apply indexed_elements).
    apply indexed_elements.
  - rewrite K. apply seq_NoDup.
  - apply Forall_forall. intros r Hr. apply in_map_iff in Hr.
    destruct Hr as [r0 [<- _]]. cbn [snd]. rewrite indexed_keys. apply seq_NoDup.
  - rewrite map_map. cbn [fst]. rewrite map_id. tauto.
Qed.

Section PageFacts.

Variable Number_toString : JS.number -> string.
Variable StringToNumber : string -> JS.number.
Variable Date_time : JS.value -> option Z.
Variable month_short : Z -> string.

Let analytics_of := Page.analytics_of Number_toString StringToNumber.
Let return_rate_text := Page.return_rate_text Number_toString.
Let Dashboard := Page.Dashboard Number_toString StringToNumber Date_time month_short.
Let monthly := Page.monthly Date_time month_short.
Let returnMonthly := Page.returnMonthly Date_time month_short.
Let click_cell := Page.click_cell Number_toString.
Let fakeLabel := Page.fakeLabel Number_toString.

(** X11. The page after [loadData], for any three fetches in place of the
    stub.  When a fetch is rejected, whatever the other two do, the loading
    line goes away and the page shows an empty dashboard: no order, the
    number 0 on both computed cards, the three tables with their header
    rows only and both charts without data.  When no fetch is rejected and
    one never settles, the page keeps showing the loading line, whatever
    the other two delivered.  When all three are fulfilled, the loading
    line goes away and the three collections are the fetched ones. *)
Theorem page_after_loadData (fetch : string -> Page.promise) :
  let keys := ["/orders"; "/inventory"; "/returns"]%string in
  let s' := fst (Page.loadData fetch Page.initial) in
  let p := snd (Page.loadData fetch Page.initial) in
  ((exists k, In k keys /\ fetch k = Page.Rejects) ->
   p = Page.Rejected
   /\ Dashboard s'
      = Page.Loaded {| Page.orderVolume := 0; Page.fulfillmentTime := VNum plus_zero;
                       Page.returnRate := VNum plus_zero |}
                    (Number_toString plus_zero ++ "%")%string
                    {| Page.thead := [("ID", "ID"); ("Customer", "Customer");
                                      ("Status", "Status"); ("Label", "Label")]%string;
                       Page.tbody := [] |}
                    {| Page.thead := [("SKU", "SKU"); ("Product", "Product");
                                      ("Stock", "Stock"); ("Channel", "Channel")]%string;
                       Page.tbody := [] |}
                    {| Page.thead := [("ID", "ID"); ("Customer", "Customer");
                                      ("Reason", "Reason"); ("Status", "Status")]%string;
                       Page.tbody := [] |}
                    [] [])
  /\ ((forall k, In k keys -> fetch k <> Page.Rejects) ->
      (exists k, In k keys /\ fetch k = Page.NeverSettles) ->
      p = Page.Waiting /\ s' = Page.initial /\ Dashboard s' = Page.LoadingView)
  /\ (forall o i r,
        fetch "/orders"%string = Page.Fulfilled o ->
        fetch "/inventory"%string = Page.Fulfilled i ->
        fetch "/returns"%string = Page.Fulfilled r ->
        p = Page.Resolved
        /\ s' = {| Page.orders := o; Page.inventory := i; Page.returns := r;
                   Page.loading := false |}
        /\ Dashboard s' <> Page.LoadingView).
Proof.
  cbv zeta. unfold Page.loadData. split; [|split].
  - intros [k [Hk E]].
    assert (R : Page.rejects (fetch "/orders"%string)
                || Page.rejects (fetch "/inventory"%string)
                || Page.rejects (fetch "/returns"%string) = true).
    { destruct Hk as [<-|[<-|[<-|[]]]]; rewrite E; simpl;
        rewrite ?orb_true_r; reflexivity. }
    rewrite R. split; reflexivity.
  - intros Hno [k [Hk E]].
    assert (Ho := Hno "/orders"%string (or_introl eq_refl)).
    assert (Hi := Hno "/inventory"%string (or_intror (or_introl eq_refl))).
    assert (Hr := Hno "/returns"%string (or_intror (or_intror (or_introl eq_refl)))).
    destruct Hk as [<-|[<-|[<-|[]]]]; rewrite E in *;
      destruct (fetch "/orders"%string), (fetch "/inventory"%string),
               (fetch "/returns"%string);
      try congruence; repeat split.
  - intros o i r -> -> ->. simpl. split; [reflexivity | split; [reflexivity|]].
    unfold Dashboard, Page.Dashboard. cbn [Page.loading]. discriminate.
Qed.

(** X12. The cards.  Without orders both computed cards hold the number 0,
    whatever the returns are, and the third card reads [String(0)]
    followed by "%".  With at least one order (fewer than 2^53) both hold
    strings: no returns read "0.0%", as many returns as orders read
    "100.0%". *)
Theorem cards_without_and_with_orders (s : Page.state) :
  (Page.orders s = [] ->
   analytics_of s = {| Page.orderVolume := 0; Page.fulfillmentTime := VNum plus_zero;
                       Page.returnRate := VNum plus_zero |}
   /\ return_rate_text (analytics_of s) = (Number_toString plus_zero ++ "%")%string)
  /\ (Page.orders s <> [] -> Z.of_nat (List.length (Page.orders s)) < 2 ^ 53 ->
      typeof (Page.fulfillmentTime (analytics_of s)) = "string"%string
      /\ typeof (Page.returnRate (analytics_of s)) = "string"%string
      /\ (Page.returns s = [] -> return_rate_text (analytics_of s) = "0.0%"%string)
      /\ (List.length (Page.returns s) = List.length (Page.orders s) ->
          return_rate_text (analytics_of s) = "100.0%"%string)).
Proof.
  unfold analytics_of, return_rate_text, Page.analytics_of, Page.return_rate_text.
  split.
  - intros ->. split; reflexivity.
  - intros Hne Hlt. cbn [Page.fulfillmentTime Page.returnRate].
    destruct (Page.orders s) as [|o os] eqn:E; [contradiction|].
    assert (Hpos : (0 < List.length (o :: os))%nat) by (simpl; lia).
    destruct (percentage_none_all (List.length (o :: os)) Hpos Hlt) as [P0 P1].
    split; [reflexivity|]. split; [|split].
    + destruct (Z.of_nat (List.length (o :: os))) as [|p|p] eqn:Ep; try (simpl in Ep; lia).
      destruct (of_Z_small p Hlt) as [m [e [Hx _]]].
      unfold percentage. rewrite Hx. reflexivity.
    + intros ->. change (of_Z (Z.of_nat (List.length (@nil Obj.t)))) with (of_Z 0).
      rewrite P0. reflexivity.
    + intros ->. rewrite P1. reflexivity.
Qed.

(** X13. Every table of the page is rectangular: one row for each record,
    in order, and four cells in each row, as many as there are headers. *)
Theorem page_tables_are_rectangular (s : Page.state) :
  let rectangular (t : Page.table) (n : nat) :=
    List.length (Page.tbody t) = n
    /\ Forall (fun r => List.length (snd r) = List.length (Page.thead t)) (Page.tbody t) in
  rectangular (Page.orders_table (Page.orders s)) (List.length (Page.orders s))
  /\ rectangular (Page.inventory_table (Page.inventory s)) (List.length (Page.inventory s))
  /\ rectangular (Page.returns_table (Page.returns s)) (List.length (Page.returns s)).
Proof.
  assert (G : forall (headers : list string) (f : Obj.t -> list Page.cell) (l : list Obj.t),
             (forall o, List.length (f o) = List.length headers) ->
             List.length (Page.tbody (Page.SectionTable headers (map f l))) = List.length l
             /\ Forall (fun r => List.length (snd r)
                                 = List.length (Page.thead (Page.SectionTable headers (map f l))))
                       (Page.tbody (Page.SectionTable headers (map f l)))).
  { intros headers f l Hf. unfold Page.SectionTable. cbn [Page.thead Page.tbody]. split.
    - rewrite length_map, indexed_length, length_map. reflexivity.
    - apply Forall_forall. intros r Hr. apply in_map_iff in Hr.
      destruct Hr as [r0 [<- Hr0]]. cbn [snd]. rewrite indexed_length, length_map.
      assert (Hin : In (snd r0) (map f l)).
      { rewrite <- (indexed_elements (map f l)). apply in_map. exact Hr0. }
      apply in_map_iff in Hin. destruct Hin as [o [<- _]]. apply Hf. }
  intros rectangular. unfold rectangular.
  split; [|split]; apply G; intros; reflexivity.
Qed.

(** X14. The button of a row generates the label of that row's order: in
    the row of the [i]-th order the cells are its id, customer and status
    and a button whose click alerts "Shipping label for" followed by the
    id of that same order; a click on the other cells does nothing. *)
Theorem generate_button_names_its_order (os : list Obj.t) (i : nat) (o : Obj.t) :
  nth_error os i = Some o ->
  exists row,
    nth_error (Page.tbody (Page.orders_table os)) i = Some (i, row)
    /\ map snd row = [ Page.Plain (Obj.get o "id"); Page.Plain (Obj.get o "customer");
                       Page.Plain (Obj.get o "status"); Page.Generate (Obj.get o "id") ]
    /\ map (fun c => click_cell (snd c)) row
       = [ None; None; None;
           Some ("Shipping label for " ++ Convert.ToString Number_toString (Obj.get o "id"))%string ].
Proof.
  intros Hi. unfold Page.orders_table, Page.SectionTable. cbn [Page.tbody].
  set (f := fun o : Obj.t => [ Page.Plain (Obj.get o "id"); Page.Plain (Obj.get o "customer");
                               Page.Plain (Obj.get o "status"); Page.Generate (Obj.get o "id") ]).
  exists (Page.indexed (f o)). split; [|split; reflexivity].
  pose proof (indexed_nth (map f os) i (f o) (map_nth_error f i os Hi)) as H.
  exact (map_nth_error (fun r : nat * list Page.cell => (fst r, Page.indexed (snd r)))
                       i (Page.indexed (map f os)) H).
Qed.

(** X15. The bar chart of the orders: the counts of its bars add up to the
    number of orders, and when no order carries a rate (the orders of the
    stub have none) every bar has the rate 0. *)
Theorem monthly_chart_of_orders (s : Page.state) :
  total_count (monthly s) = List.length (Page.orders s)
  /\ ((forall o, In o (Page.orders s) -> ToBoolean (Obj.get o "rate") = false) ->
      forall b, In b (monthly s) -> Bucket.rate b = VNum plus_zero).
Proof.
  unfold monthly, Page.monthly. split.
  - rewrite total_count_aggregate. apply length_map.
  - intros Hnone b Hb.
    destruct (rate_zero_or_carried Date_time month_short _ b Hb)
      as [[_ H]|[Ht [r [Hr [_ Hrate]]]]]; [exact H|exfalso].
    apply in_map_iff in Hr. destruct Hr as [o [<- Ho]].
    simpl in Hrate. rewrite <- Hrate, (Hnone o Ho) in Ht. discriminate.
Qed.

End PageFacts.

(** The page after mounting with the stub, on the sample host. *)
Example page_after_mount (Number_toString : JS.number -> string)
        (StringToNumber : string -> JS.number) :
  snd Page.mount = Page.Resolved
  /\ Page.Dashboard Number_toString StringToNumber SampleHost.Date_time SampleHost.month_short
                    Page.initial = Page.LoadingView
  /\ Page.analytics_of Number_toString StringToNumber (fst Page.mount)
     = {| Page.orderVolume := 1; Page.fulfillmentTime := VStr "0.0";
          Page.returnRate := VStr "100.0" |}
  /\ Page.return_rate_text Number_toString
       (Page.analytics_of Number_toString StringToNumber (fst Page.mount)) = "100.0%"%string
  /\ Page.monthly SampleHost.Date_time SampleHost.month_short (fst Page.mount)
     = [ {| Bucket.month := "Apr"; Bucket.count := 1; Bucket.rate := VNum plus_zero |} ]
  /\ Page.returnMonthly SampleHost.Date_time SampleHost.month_short (fst Page.mount)
     = [ {| Bucket.month := "Apr"; Bucket.count := 1; Bucket.rate := VNum (of_Z 5) |} ].
Proof. vm_compute. repeat split. Qed.

(** ** Witnesses on the sample host and the stub data *)

Lemma aggregateMonthly_buckets_are_inhabited_witness :
  In april_bucket (sample_aggregate april_returns)
  /\ (1 <= Bucket.count april_bucket <= List.length april_returns)%nat.
Proof.
  assert (I : In april_bucket (sample_aggregate april_returns))
    by (vm_compute; left; reflexivity).
  split; [exact I|].
  exact (proj1 (aggregateMonthly_buckets_are_inhabited
                  SampleHost.Date_time SampleHost.month_short april_returns)
               april_bucket I).
Defined.

Lemma aggregateMonthly_counts_ignore_order_witness :
  Permutation spring_orders (rev spring_orders)
  /\ count_in (sample_aggregate spring_orders) "Mar"
     = count_in (sample_aggregate (rev spring_orders)) "Mar"
  /\ List.length (sample_aggregate spring_orders)
     = List.length (sample_aggregate (rev spring_orders)).
Proof.
  assert (P : Permutation spring_orders (rev spring_orders)) by apply Permutation_rev.
  destruct (aggregateMonthly_counts_ignore_order
              SampleHost.Date_time SampleHost.month_short
              spring_orders (rev spring_orders) P) as [H1 [_ H3]].
  split; [exact P | split; [exact (H1 "Mar"%string) | exact H3]].
Defined.

Lemma aggregateMonthly_of_two_batches_witness :
  ((forall l, In l (labels SampleHost.Date_time SampleHost.month_short
                           ([SampleHost.on "2025-03-10" VUndefined]
                            ++ [SampleHost.on "2025-01-05" VUndefined])) ->
              array_index l = None)
   /\ exists rest,
        map Bucket.month (sample_aggregate ([SampleHost.on "2025-03-10" VUndefined]
                                            ++ [SampleHost.on "2025-01-05" VUndefined]))
        = map Bucket.month (sample_aggregate [SampleHost.on "2025-03-10" VUndefined]) ++ rest)
  /\ In april_bucket (sample_aggregate ([SampleHost.on "2025-04-02" (VNum (of_Z 5))]
                                        ++ [SampleHost.on "2025-04-22" (VNum (of_Z 8))]))
  /\ Bucket.rate april_bucket
     = match carried_rates (mapped_to SampleHost.Date_time SampleHost.month_short
                                      (Bucket.month april_bucket)
                                      [SampleHost.on "2025-04-22" (VNum (of_Z 8))]) with
       | [] => last_rate SampleHost.Date_time SampleHost.month_short
                         (Bucket.month april_bucket)
                         [SampleHost.on "2025-04-02" (VNum (of_Z 5))]
       | _ => last_rate SampleHost.Date_time SampleHost.month_short
                        (Bucket.month april_bucket)
                        [SampleHost.on "2025-04-22" (VNum (of_Z 8))]
       end.
Proof.
  assert (N : forall l, In l (labels SampleHost.Date_time SampleHost.month_short
                                     ([SampleHost.on "2025-03-10" VUndefined]
                                      ++ [SampleHost.on "2025-01-05" VUndefined])) ->
                        array_index l = None).
  { assert (L : labels SampleHost.Date_time SampleHost.month_short
                       ([SampleHost.on "2025-03-10" VUndefined]
                        ++ [SampleHost.on "2025-01-05" VUndefined])
                = ["Mar"; "Jan"]%string) by (vm_compute; reflexivity).
    rewrite L. intros l [<-|[<-|[]]]; vm_compute; reflexivity. }
  assert (I : In april_bucket
                 (sample_aggregate ([SampleHost.on "2025-04-02" (VNum (of_Z 5))]
                                    ++ [SampleHost.on "2025-04-22" (VNum (of_Z 8))])))
    by (vm_compute; left; reflexivity).
  split; [split; [exact N|] | split; [exact I|]].
  - exact (proj1 (aggregateMonthly_of_two_batches
                    SampleHost.Date_time SampleHost.month_short
                    [SampleHost.on "2025-03-10" VUndefined]
                    [SampleHost.on "2025-01-05" VUndefined]) N).
  - exact (proj2 (proj2 (aggregateMonthly_of_two_batches
                           SampleHost.Date_time SampleHost.month_short
                           [SampleHost.on "2025-04-02" (VNum (of_Z 5))]
                           [SampleHost.on "2025-04-22" (VNum (of_Z 8))]))
                 april_bucket I).
Defined.

Lemma page_after_loadData_witness :
  let nts := fun _ : JS.number => "0"%string in
  let stn := fun _ : string => S754_nan in
  let keys := ["/orders"; "/inventory"; "/returns"]%string in
  let failing := fun key => if String.eqb key "/inventory" then Page.Rejects
                            else Page.NeverSettles in
  let stalling := fun key => if String.eqb key "/returns" then Page.NeverSettles
                             else Page.Fulfilled (Page.fakeFetch key) in
  ((exists k, In k keys /\ failing k = Page.Rejects)
   /\ snd (Page.loadData failing Page.initial) = Page.Rejected)
  /\ ((forall k, In k keys -> stalling k <> Page.Rejects)
      /\ (exists k, In k keys /\ stalling k = Page.NeverSettles)
      /\ Page.Dashboard nts stn SampleHost.Date_time SampleHost.month_short
                        (fst (Page.loadData stalling Page.initial)) = Page.LoadingView)
  /\ snd (Page.loadData (fun key => Page.Fulfilled (Page.fakeFetch key)) Page.initial)
     = Page.Resolved.
Proof.
  intros nts stn keys failing stalling.
  assert (F : exists k, In k keys /\ failing k = Page.Rejects).
  { exists "/inventory"%string. split; [right; left; reflexivity | reflexivity]. }
  assert (S1 : forall k, In k keys -> stalling k <> Page.Rejects).
  { intros k [<-|[<-|[<-|[]]]]; vm_compute; discriminate. }
  assert (S2 : exists k, In k keys /\ stalling k = Page.NeverSettles).
  { exists "/returns"%string. split; [right; right; left; reflexivity | reflexivity]. }
  split; [split; [exact F|] | split; [split; [exact S1 | split; [exact S2|]]|]].
  - exact (proj1 (proj1 (page_after_loadData nts stn SampleHost.Date_time
                           SampleHost.month_short failing) F)).
  - exact (proj2 (proj2 (proj1 (proj2 (page_after_loadData nts stn SampleHost.Date_time
                                         SampleHost.month_short stalling)) S1 S2))).
  - exact (proj1 (proj2 (proj2 (page_after_loadData nts stn SampleHost.Date_time
                                  SampleHost.month_short
                                  (fun key => Page.Fulfilled (Page.fakeFetch key))))
                        (Page.fakeFetch "/orders") (Page.fakeFetch "/inventory")
                        (Page.fakeFetch "/returns") eq_refl eq_refl eq_refl)).
Defined.

Lemma aggregateMonthly_rate_is_zero_or_carried_witness :
  In april_bucket (sample_aggregate april_returns)
  /\ ((carried_rates (mapped_to SampleHost.Date_time SampleHost.month_short
                                (Bucket.month april_bucket) april_returns) = []
       /\ Bucket.rate april_bucket = VNum plus_zero)
      \/ (ToBoolean (Bucket.rate april_bucket) = true
          /\ exists o, In o april_returns
                       /\ label_of SampleHost.Date_time SampleHost.month_short o
                          = Bucket.month april_bucket
                       /\ Rec.rate o = Bucket.rate april_bucket)).
Proof.
  assert (I : In april_bucket (sample_aggregate april_returns))
    by (vm_compute; left; reflexivity).
  split; [exact I|].
  exact (aggregateMonthly_rate_is_zero_or_carried
           SampleHost.Date_time SampleHost.month_short april_returns april_bucket I).
Defined.

Lemma cards_without_and_with_orders_witness :
  let nts := fun _ : JS.number => "0"%string in
  let stn := fun _ : string => S754_nan in
  let s := fst Page.mount in
  (Page.orders s <> [] /\ Z.of_nat (List.length (Page.orders s)) < 2 ^ 53
   /\ List.length (Page.returns s) = List.length (Page.orders s))
  /\ Page.return_rate_text nts (Page.analytics_of nts stn s) = "100.0%"%string
  /\ (Page.orders Page.initial = []
      /\ Page.return_rate_text nts (Page.analytics_of nts stn Page.initial) = "0%"%string).
Proof.
  intros nts stn s.
  assert (H1 : Page.orders s <> []) by (vm_compute; discriminate).
  assert (H2 : Z.of_nat (List.length (Page.orders s)) < 2 ^ 53) by (vm_compute; reflexivity).
  assert (H3 : List.length (Page.returns s) = List.length (Page.orders s)) by reflexivity.
  split; [split; [exact H1 | split; [exact H2 | exact H3]]|].
  split.
  - exact (proj2 (proj2 (proj2 (proj2 (cards_without_and_with_orders nts stn s) H1 H2))) H3).
  - split; [reflexivity|].
    exact (proj2 (proj1 (cards_without_and_with_orders nts stn Page.initial) eq_refl)).
Defined.

Lemma generate_button_names_its_order_witness :
  let nts := fun _ : JS.number => ""%string in
  let os := Page.fakeFetch "/orders" in
  let o := hd [] os in
  nth_error os 0 = Some o
  /\ exists row,
      nth_error (Page.tbody (Page.orders_table os)) 0 = Some (0%nat, row)
      /\ map snd row = [ Page.Plain (Obj.get o "id"); Page.Plain (Obj.get o "customer");
                         Page.Plain (Obj.get o "status"); Page.Generate (Obj.get o "id") ]
      /\ map (fun c => Page.click_cell nts (snd c)) row
         = [ None; None; None;
             Some ("Shipping label for " ++ Convert.ToString nts (Obj.get o "id"))%string ].
Proof.
  intros nts os o.
  assert (H : nth_error os 0 = Some o) by reflexivity.
  split; [exact H|].
  exact (generate_button_names_its_order nts os 0 o H).
Defined.

Lemma monthly_chart_of_orders_witness :
  let s := fst Page.mount in
  (forall o, In o (Page.orders s) -> ToBoolean (Obj.get o "rate") = false)
  /\ forall b, In b (Page.monthly SampleHost.Date_time SampleHost.month_short s) ->
               Bucket.rate b = VNum plus_zero.
Proof.
  intros s.
  assert (H : forall o, In o (Page.orders s) -> ToBoolean (Obj.get o "rate") = false).
  { intros o [<-|[]]. reflexivity. }
  split; [exact H|].
  exact (proj2 (monthly_chart_of_orders SampleHost.Date_time SampleHost.month_short s) H).
Defined.

(* ===================================================================== *)
(** * Further properties of the tab components *)
(* ===================================================================== *)

(** In the context file a trigger is styled as selected exactly when its
    value is the active one. *)
Lemma context_buttons_style (ctx : ContextTabs.context) (e : element) :
  forall b, In b (flat_map buttons (ContextTabs.render ctx e)) ->
  snd (fst b) = strict_eq (ContextTabs.activeTab ctx) (fst (fst b)).
Proof.
  induction e using element_nested_ind; intros b Hin; simpl in Hin.
  - rewrite app_nil_r in Hin. apply in_flat_map_flat_map in Hin.
    destruct Hin as [c [Hc Hb]]. rewrite Forall_forall in H. exact (H c Hc b Hb).
  - destruct Hin as [<- | []]. reflexivity.
  - destruct (strict_eq v (ContextTabs.activeTab ctx)); simpl in Hin; [|contradiction].
    rewrite app_nil_r in Hin. apply in_flat_map_flat_map in Hin.
    destruct Hin as [c [Hc Hb]]. rewrite Forall_forall in H. exact (H c Hc b Hb).
  - rewrite app_nil_r in Hin. apply in_flat_map_flat_map in Hin.
    destruct Hin as [c [Hc Hb]]. rewrite Forall_forall in H. exact (H c Hc b Hb).
  - destruct Hin.
Qed.

(** In the props file a trigger below the first level is styled as if the
    active identifier were [undefined]. *)
Lemma prop_nested_buttons_style (e : element) :
  forall b, In b (flat_map buttons (PropTabs.render PropTabs.as_written e)) ->
  snd (fst b) = strict_eq VUndefined (fst (fst b)).
Proof.
  induction e using element_nested_ind; intros b Hin; simpl in Hin.
  - rewrite app_nil_r in Hin. apply in_flat_map_flat_map in Hin.
    destruct Hin as [c [Hc Hb]]. rewrite Forall_forall in H. exact (H c Hc b Hb).
  - destruct Hin as [<- | []]. reflexivity.
  - destruct (strict_eq v VUndefined); simpl in Hin; [|contradiction].
    rewrite app_nil_r in Hin. apply in_flat_map_flat_map in Hin.
    destruct Hin as [c [Hc Hb]]. rewrite Forall_forall in H. exact (H c Hc b Hb).
  - rewrite app_nil_r in Hin. apply in_flat_map_flat_map in Hin.
    destruct Hin as [c [Hc Hb]]. rewrite Forall_forall in H. exact (H c Hc b Hb).
  - destruct Hin.
Qed.

Lemma strict_eq_nan (v : JS.value) : strict_eq v (VNum S754_nan) = false.
Proof. destruct v as [| |b|n|s]; try reflexivity. destruct n; reflexivity. Qed.

(** X16. In the context file no click raises, at any depth: a click on the
    [i]-th rendered trigger makes the value of that trigger the active
    identifier, and the trigger was styled as selected exactly when its
    value was the active one; beyond the last trigger there is nothing to
    click. *)
Theorem context_click_selects_the_trigger (children : list element) (i : nat)
        (s : TabStore.store) :
  match nth_error (buttons (ContextTabs.Tabs children s)) i with
  | Some (v, selected, _) =>
      click (ContextTabs.Tabs children) i s = Updated v
      /\ TabStore.activeId (TabStore.select v s) = v
      /\ selected = strict_eq (TabStore.activeId s) v
  | None => click (ContextTabs.Tabs children) i s = NoSuchButton
  end.
Proof.
  unfold click.
  destruct (nth_error (buttons (ContextTabs.Tabs children s)) i) as [[[v sel] h]|] eqn:E;
    [|reflexivity].
  apply nth_error_In in E. unfold ContextTabs.Tabs in E. simpl in E.
  apply in_flat_map_flat_map in E. destruct E as [c [_ Hb]].
  pose proof (context_buttons_set _ _ _ Hb) as Hh.
  pose proof (context_buttons_style _ _ _ Hb) as Hs.
  simpl in Hh, Hs. subst h. split; [reflexivity | split; [reflexivity | exact Hs]].
Qed.

(** X17. In the props file nothing inside a [TabsList] works, whatever
    the state and whatever else [Tabs] holds: a click on any trigger of the
    list raises a TypeError and leaves the state alone, no trigger of the
    list with a string value is styled as selected, and a content panel
    with a string value placed below the first level is never shown. *)
Theorem prop_tabs_below_first_level (cs rest : list element) (s : TabStore.store)
        (i : nat) (e : element) (y : string) :
  ((i < List.length (flat_map buttons (flat_map (PropTabs.render PropTabs.as_written) cs)))%nat ->
   click (PropTabs.Tabs (TabsList cs :: rest)) i s = TypeError)
  /\ (forall sel h,
        In (VStr y, sel, h)
           (buttons (PropTabs.Tabs [TabsList cs] s)) -> sel = false /\ h = NotAFunction)
  /\ ~ In (VStr y) (flat_map panels (PropTabs.render PropTabs.as_written e)).
Proof.
  split; [|split].
  - apply prop_click_inside_list_throws.
  - intros sel h Hin. unfold PropTabs.Tabs in Hin. simpl in Hin.
    rewrite !app_nil_r in Hin. apply in_flat_map_flat_map in Hin.
    destruct Hin as [c [_ Hb]].
    pose proof (prop_nested_buttons_throw _ _ Hb) as Hh.
    pose proof (prop_nested_buttons_style _ _ Hb) as Hs.
    simpl in Hh, Hs. split; assumption.
  - intros Hin. apply prop_panels_active in Hin. simpl in Hin.
    destruct Hin; discriminate.
Qed.

Lemma prop_tabs_below_first_level_witness :
  (1 < List.length (flat_map buttons
                      (flat_map (PropTabs.render PropTabs.as_written)
                                [TabsTrigger (VStr "orders"); TabsTrigger (VStr "inventory")])))%nat
  /\ click (PropTabs.Tabs
              (TabsList [TabsTrigger (VStr "orders"); TabsTrigger (VStr "inventory")]
               :: [TabsContent (VStr "orders") []])) 1 (VStr "orders") = TypeError.
Proof.
  assert (H : (1 < List.length
                     (flat_map buttons
                        (flat_map (PropTabs.render PropTabs.as_written)
                                  [TabsTrigger (VStr "orders"); TabsTrigger (VStr "inventory")])))%nat)
    by (vm_compute; lia).
  split; [exact H|].
  exact (proj1 (prop_tabs_below_first_level
                  [TabsTrigger (VStr "orders"); TabsTrigger (VStr "inventory")]
                  [TabsContent (VStr "orders") []] (VStr "orders") 1 Text "") H).
Defined.

(** X18. When every trigger and every panel is a direct child of [Tabs],
    the two files render the same output in every state and answer every
    click alike. *)
Theorem flat_tabs_behave_alike (children : list element) (s : TabStore.store) (i : nat) :
  forallb flat children = true ->
  PropTabs.Tabs children s = ContextTabs.Tabs children s
  /\ click (PropTabs.Tabs children) i s = click (ContextTabs.Tabs children) i s.
Proof.
  intros Hf. unfold click.
  rewrite (flat_tabs_render_alike children s Hf). split; reflexivity.
Qed.

Lemma flat_tabs_behave_alike_witness :
  forallb flat flat_tabs = true
  /\ click (PropTabs.Tabs flat_tabs) 1 (VStr "orders")
     = click (ContextTabs.Tabs flat_tabs) 1 (VStr "orders")
  /\ click (PropTabs.Tabs flat_tabs) 1 (VStr "orders") = Updated (VStr "inventory").
Proof.
  assert (H : forallb flat flat_tabs = true) by reflexivity.
  split; [exact H|].
  split; [exact (proj2 (flat_tabs_behave_alike flat_tabs (VStr "orders") 1 H)) | reflexivity].
Defined.

(** X19. Identifiers that activate nothing.  With NaN as the active
    identifier no panel is shown and no trigger is styled as selected in
    the context file, not even one whose value is NaN; and without a
    [defaultValue] no panel with a string value is shown in either file
    until a trigger is clicked. *)
Theorem tabs_with_nothing_active (children : list element) (s : TabStore.store)
        (v : JS.value) (y : string) :
  TabStore.isActive (TabStore.select (VNum S754_nan) s) v = false
  /\ panels (ContextTabs.Tabs children (TabStore.select (VNum S754_nan) s)) = []
  /\ Forall (fun b => snd (fst b) = false)
            (buttons (ContextTabs.Tabs children (TabStore.select (VNum S754_nan) s)))
  /\ ~ In (VStr y) (panels (ContextTabs.Tabs children (TabStore.initialize VUndefined)))
  /\ ~ In (VStr y) (panels (PropTabs.Tabs children (TabStore.initialize VUndefined))).
Proof.
  split; [|split; [|split; [|split]]].
  - rewrite isActive_strict_eq. apply strict_eq_nan.
  - destruct (panels (ContextTabs.Tabs children (TabStore.select (VNum S754_nan) s)))
      as [|w ws] eqn:E; [reflexivity|exfalso].
    assert (Hin : In w (panels (ContextTabs.Tabs children
                                  (TabStore.select (VNum S754_nan) s))))
      by (rewrite E; left; reflexivity).
    unfold ContextTabs.Tabs in Hin. simpl in Hin.
    apply in_flat_map_flat_map in Hin. destruct Hin as [c [_ Hin]].
    apply context_panels_active in Hin. simpl in Hin.
    rewrite strict_eq_nan in Hin. discriminate.
  - apply Forall_forall. intros b Hb. unfold ContextTabs.Tabs in Hb. simpl in Hb.
    apply in_flat_map_flat_map in Hb. destruct Hb as [c [_ Hb]].
    apply context_buttons_style in Hb. rewrite Hb. simpl.
    destruct (fst (fst b)) as [| |x|n|x]; try reflexivity.
  - intros Hin. unfold ContextTabs.Tabs in Hin. simpl in Hin.
    apply in_flat_map_flat_map in Hin. destruct Hin as [c [_ Hin]].
    apply context_panels_active in Hin. discriminate.
  - intros Hin. unfold PropTabs.Tabs in Hin. simpl in Hin.
    apply in_flat_map_flat_map in Hin. destruct Hin as [c [_ Hin]].
    apply prop_panels_active in Hin. destruct Hin; discriminate.
Qed.

(* ===================================================================== *)
(** * Properties of [Button] *)
(* ===================================================================== *)

Section ButtonFacts.

Variable Number_toString : JS.number -> string.
Variable inherited_text : string -> option string.

Let className_of := Button.className_of Number_toString inherited_text.
Let member_text := Button.member_text Number_toString inherited_text.

(** X20. The class of a [Button].  A prop that is left out stands for
    "default" (for the empty class name), so a button without props has
    the base styles, the default colours and the default size.  The three
    names of each table give their own styles whatever an object inherits.
    Any other variant that names no inherited property, [null] included,
    puts the text "undefined" where the colours should be: there is no
    fall-back to the default variant. *)
Theorem Button_class_of_missing_and_unknown_props (variant size className : JS.value) :
  className_of VUndefined size className = className_of (VStr "default") size className
  /\ className_of variant VUndefined className = className_of variant (VStr "default") className
  /\ className_of variant size VUndefined = className_of variant size (VStr "")
  /\ className_of VUndefined VUndefined VUndefined
     = (Button.baseStyles ++ " bg-blue-500 text-white hover:bg-blue-600 h-10 px-4 py-2 ")%string
  /\ className_of VUndefined (VStr "sm") VUndefined
     = (Button.baseStyles ++ " bg-blue-500 text-white hover:bg-blue-600 h-8 px-3 text-sm ")%string
  /\ (variant <> VUndefined ->
      Button.own Button.variants (Convert.ToString Number_toString variant) = None ->
      inherited_text (Convert.ToString Number_toString variant) = None ->
      className_of variant size className
      = (Button.baseStyles ++ " undefined " ++ member_text Button.sizes
                                                 (Button.default_to "default" size)
                           ++ " " ++ Convert.ToString Number_toString
                                       (Button.default_to "" className))%string).
Proof.
  split; [reflexivity | split; [reflexivity | split; [reflexivity |
    split; [reflexivity | split; [reflexivity |]]]]].
  intros Hv Hown Hinh.
  unfold className_of, Button.className_of.
  assert (E : Button.default_to "default" variant = variant)
    by (destruct variant; [contradiction| | | |]; reflexivity).
  rewrite E. unfold Button.member_text at 1. rewrite Hown, Hinh. reflexivity.
Qed.

End ButtonFacts.

Lemma Button_class_of_missing_and_unknown_props_witness :
  let nts := fun _ : JS.number => "0"%string in
  let inh := fun k : string => if String.eqb k "toString" then Some "function"%string else None in
  (VNull <> VUndefined
   /\ Button.own Button.variants (Convert.ToString nts VNull) = None
   /\ inh (Convert.ToString nts VNull) = None)
  /\ Button.className_of nts inh VNull VUndefined VUndefined
     = (Button.baseStyles ++ " undefined h-10 px-4 py-2 ")%string.
Proof.
  intros nts inh.
  assert (H1 : VNull <> VUndefined) by discriminate.
  assert (H2 : Button.own Button.variants (Convert.ToString nts VNull) = None) by reflexivity.
  assert (H3 : inh (Convert.ToString nts VNull) = None) by reflexivity.
  split; [split; [exact H1 | split; [exact H2 | exact H3]]|].
  exact (proj2 (proj2 (proj2 (proj2 (proj2
           (Button_class_of_missing_and_unknown_props nts inh VNull VUndefined VUndefined)))))
           H1 H2 H3).
Defined.
